(** * EmpowerHub: the scoring and aggregation engine of [app.py]

    A shallow embedding of the pure helper functions of [src/app.py]
    (sentiment classifier, score calculators, recommendation generators,
    level classifiers), of the token check and of the computations of the
    request handlers that call them, together with the properties stated
    about them.

    Conventions of the embedding.
    - A Python [str] is a Rocq [string]; every character is a code point
      below 256.  [str.lower] maps [A-Z] to [a-z] and leaves every other
      such code point outside the ASCII letters, which is all that keyword
      matching against ASCII keywords observes.
    - A Python [int] is a [Z].
    - The functions are duck-typed over Python numbers ([int], [float],
      and the [Decimal] that the record store returns for [AVG]).  The
      interface [PyNum] lists the operations they use; it has two instances:
      exact rationals [Q] (ints, Decimals, and floats read as the rationals
      they denote) and IEEE-754 binary64 ([float], the kernel's primitive
      floats).  The wellness handler divides its readings, so it computes
      in binary64 whatever JSON numbers it was sent; a reading is a
      binary64, an int reading of magnitude up to 2^53 being the float
      [of_int n] it equals, and larger ints are outside the embedding.
      What the handler returns, and where its tips start, is stated over
      binary64.  Statements over [Q] concern the functions
      that only compare their Decimal or int argument, and order and range
      properties; the values that the program's float arithmetic produces
      are checked over binary64 as well.
    - A Python [dict] is a [gmap]; a missing key ([KeyError]) and a
      failing [round] are [None]. *)

From Stdlib Require Import ZArith QArith Qround Qminmax Lqa Lia Floats Ascii String List.
From stdpp Require Import gmap strings list.

(** ** Python numbers *)

Class PyNum (num : Type) : Type := {
  of_int : Z → num;             (* an [int] operand of a mixed operation *)
  lit : Q → num;                (* a decimal literal such as [0.7] *)
  add : num → num → num;
  sub : num → num → num;
  mul : num → num → num;
  div : num → num → num;        (* true division, divisor never zero here *)
  lt : num → num → bool;        (* [a < b] *)
  ge : num → num → bool;        (* [a >= b] *)
  py_round : num → option Z     (* [round(a)], [None] when it raises *)
}.

Declare Scope py_scope.
Delimit Scope py_scope with py.
Infix "+" := add : py_scope.
Infix "-" := sub : py_scope.
Infix "*" := mul : py_scope.
Infix "/" := div : py_scope.
Infix "<?" := lt : py_scope.
Infix ">=?" := ge (at level 70) : py_scope.

(** [min(a, b)] and [max(a, b)] of the Python builtins: the first argument
    is kept unless the second is strictly smaller (resp. larger). *)
Definition py_min {num : Type} `{!PyNum num} (a b : num) : num :=
  if (b <? a)%py then b else a.

Definition py_max {num : Type} `{!PyNum num} (a b : num) : num :=
  if (a <? b)%py then b else a.

(** [sum] over a sequence of ints. *)
Definition py_sum (l : list Z) : Z := fold_left Z.add l 0%Z.

(** *** Exact numbers *)

(** [round] to the nearest integer, ties to the even one. *)
Definition round_half_even (x : Q) : Z :=
  let f := Qfloor x in
  match (x - inject_Z f ?= 1 # 2)%Q with
  | Lt => f
  | Gt => (f + 1)%Z
  | Eq => if Z.even f then f else (f + 1)%Z
  end.

#[export] Instance Q_PyNum : PyNum Q := {|
  of_int := inject_Z;
  lit q := q;
  add := Qplus;
  sub := Qminus;
  mul := Qmult;
  div := Qdiv;
  lt a b := negb (Qle_bool b a);
  ge a b := Qle_bool b a;
  py_round a := Some (round_half_even a)
|}.

(** *** IEEE-754 binary64 *)

Module Binary64.

(** [float(z)]: the binary64 nearest to the int, the even one of two
    equally near.  Python raises OverflowError on an int beyond the
    binary64 range, where this conversion gives an infinity; the code
    converts constants and stored scores only. *)
Definition of_Z (z : Z) : float :=
  SF2Prim (binary_normalize prec emax z 0 false).

(** A decimal literal denotes the binary64 nearest to it, which the
    correctly rounded quotient of its numerator and denominator gives. *)
Definition of_literal (q : Q) : float :=
  PrimFloat.div (of_Z (Qnum q)) (of_Z (Zpos (Qden q))).

(** The rational a finite binary64 denotes. *)
Definition to_Q (x : float) : option Q :=
  match Prim2SF x with
  | S754_zero _ => Some 0%Q
  | S754_finite s m e =>
      let v := (inject_Z (Zpos m) * Qpower 2 e)%Q in
      Some (if s then Qopp v else v)
  | S754_infinity _ | S754_nan => None
  end.

Definition round (x : float) : option Z :=
  round_half_even <$> to_Q x.

End Binary64.

#[export] Instance float_PyNum : PyNum float := {|
  of_int := Binary64.of_Z;
  lit := Binary64.of_literal;
  add := PrimFloat.add;
  sub := PrimFloat.sub;
  mul := PrimFloat.mul;
  div := PrimFloat.div;
  lt := PrimFloat.ltb;
  ge a b := PrimFloat.leb b a;
  py_round := Binary64.round
|}.

(** ** Python strings *)

Definition char_lower (c : ascii) : ascii :=
  let n := N_of_ascii c in
  if ((65 <=? n) && (n <=? 90))%N then ascii_of_N (n + 32) else c.

(** [s.lower()] *)
Fixpoint str_lower (s : string) : string :=
  match s with
  | EmptyString => EmptyString
  | String c s' => String (char_lower c) (str_lower s')
  end.

(** [t] starts with [w]. *)
Fixpoint str_prefix (w t : string) : bool :=
  match w, t with
  | EmptyString, _ => true
  | String a w', String b t' => Ascii.eqb a b && str_prefix w' t'
  | String _ _, EmptyString => false
  end.

(** [w in t] on strings: [w] occurs in [t] at some offset. *)
Fixpoint str_in (w t : string) : bool :=
  if str_prefix w t then true
  else match t with
       | EmptyString => false
       | String _ t' => str_in w t'
       end.

(** ** Lexical sentiment classifier (app.py, [analyze_sentiment]) *)

Definition positive_words : list string :=
  ["happy"; "good"; "great"; "excited"; "joy"; "love"; "nice"; "positive";
   "awesome"; "fantastic"].

Definition negative_words : list string :=
  ["sad"; "bad"; "angry"; "hate"; "upset"; "stress"; "anxious"; "depress";
   "tired"; "worried"].

Definition analyze_sentiment {num : Type} `{!PyNum num} (text : string) : string * num :=
  let text_lower := str_lower text in
  let positive_count :=
    py_sum (map (λ _, 1%Z)
              (List.filter (λ word, str_in word text_lower) positive_words)) in
  let negative_count :=
    py_sum (map (λ _, 1%Z)
              (List.filter (λ word, str_in word text_lower) negative_words)) in
  if (positive_count >? negative_count)%Z then ("POSITIVE", lit 0.7)
  else if (negative_count >? positive_count)%Z then ("NEGATIVE", lit 0.7)
  else ("NEUTRAL", lit 0.6).

(** ** Recommendation table (app.py, [generate_mental_health_recommendations]) *)

Definition mental_health_table : gmap string (list string) :=
  {[ "POSITIVE" :=
       ["Keep up the positive mindset with regular exercise and social connections";
        "Practice gratitude and maintain your current healthy habits";
        "Consider sharing your positivity with others who might need support"];
     "NEGATIVE" :=
       ["Consider talking to a trusted friend, family member, or mental health professional";
        "Try relaxation techniques like deep breathing or meditation";
        "Engage in physical activity, even a short walk can help improve mood";
        "Ensure you're getting adequate sleep and nutrition"];
     "NEUTRAL" :=
       ["Engage in activities that bring you joy and fulfillment";
        "Connect with friends and family for social support";
        "Try mindfulness or meditation practices";
        "Consider exploring new hobbies or interests"] ]}.

(** [recommendations.get(sentiment, recommendations['NEUTRAL'])]: the
    default is evaluated first, by subscript. *)
Definition generate_mental_health_recommendations {num : Type}
    (sentiment : string) (confidence : num) : option (list string) :=
  let recommendations := mental_health_table in
  fallback ← recommendations !! "NEUTRAL";
  Some (default fallback (recommendations !! sentiment)).

(** ** Score calculators *)

Definition base_scores : gmap string Z :=
  {[ "POSITIVE" := 85%Z; "NEUTRAL" := 60%Z; "NEGATIVE" := 35%Z ]}.

Definition calculate_mood_score {num : Type} `{!PyNum num}
    (sentiment : string) (confidence : num) : num :=
  let base_score := default 60%Z (base_scores !! sentiment) in
  let confidence_adjustment := ((confidence - lit 0.5) * of_int 20)%py in
  py_max (of_int 10)
         (py_min (of_int 100) (of_int base_score + confidence_adjustment)%py).

Definition len {A : Type} (l : list A) : Z := Z.of_nat (length l).

Definition healthy_ingredients : list string :=
  ["vegetables"; "fruits"; "whole grains"; "lean protein"; "legumes"].

Definition calculate_nutrition_score
    (ingredients : list string) (dietary_restrictions : string) : Z :=
  let base_score := Z.min (len ingredients * 10) 100 in
  let bonus :=
    py_sum (map (λ _, 5%Z)
              (List.filter
                 (λ ingredient,
                    existsb (λ healthy, str_in healthy (str_lower ingredient))
                            healthy_ingredients)
                 ingredients)) in
  Z.min 100 (base_score + bonus).

Definition estimate_meal_cost (ingredients : list string) : Z :=
  let avg_cost_per_ingredient := 50%Z in
  (len ingredients * avg_cost_per_ingredient)%Z.

Definition calculate_waste_impact_score (items : list string) : Z :=
  Z.min 100 (len items * 15).

(** ** Wellness recommendations (app.py, [generate_wellness_recommendations]) *)

Definition generate_wellness_recommendations {num : Type} `{!PyNum num}
    (wellness_score : Z) (wellness_data : gmap string num)
    : option (list string) :=
  let recommendations := [] in
  sleep_score ← wellness_data !! "sleep_score";
  let recommendations :=
    if (sleep_score <? of_int 70)%py
    then recommendations ++ ["Aim for 7-9 hours of quality sleep each night"]
    else recommendations in
  exercise_score ← wellness_data !! "exercise_score";
  let recommendations :=
    if (exercise_score <? of_int 70)%py
    then recommendations
           ++ ["Try to get at least 30 minutes of physical activity daily"]
    else recommendations in
  water_score ← wellness_data !! "water_score";
  let recommendations :=
    if (water_score <? of_int 70)%py
    then recommendations ++ ["Increase water intake to 8 glasses per day"]
    else recommendations in
  let recommendations :=
    if (wellness_score >=? 80)%Z
    then recommendations ++ ["Great job maintaining excellent wellness habits!"]
    else if (wellness_score >=? 60)%Z
    then recommendations
           ++ ["You're on the right track - small improvements can make a big difference"]
    else recommendations
           ++ ["Focus on gradual improvements in sleep, exercise, and hydration"] in
  Some recommendations.

(** ** Wellness tracking (app.py, [track_wellness])

    The computation of the handler between reading the request and
    returning the response; the insertion into the record store, which
    does not feed back into the result apart from the row id, is left out. *)

Record wellness_response (num : Type) : Type := WellnessResponse {
  wellness_score : Z;
  breakdown : gmap string num;
  recommendations : list string
}.
Arguments WellnessResponse {num} _ _ _.
Arguments wellness_score {num} _.
Arguments breakdown {num} _.
Arguments recommendations {num} _.

Definition track_wellness {num : Type} `{!PyNum num}
    (sleep_hours exercise_minutes water_glasses : num)
    : option (wellness_response num) :=
  let sleep_score :=
    py_min ((sleep_hours / of_int 8) * of_int 100)%py (of_int 100) in
  let exercise_score :=
    py_min ((exercise_minutes / of_int 30) * of_int 100)%py (of_int 100) in
  let water_score :=
    py_min ((water_glasses / of_int 8) * of_int 100)%py (of_int 100) in
  wellness_score ←
    py_round ((sleep_score + exercise_score + water_score) / of_int 3)%py;
  let wellness_data : gmap string num :=
    {[ "sleep_hours" := sleep_hours;
       "exercise_minutes" := exercise_minutes;
       "water_glasses" := water_glasses;
       "sleep_score" := sleep_score;
       "exercise_score" := exercise_score;
       "water_score" := water_score;
       "overall_score" := of_int wellness_score ]} in
  recommendations ←
    generate_wellness_recommendations wellness_score wellness_data;
  Some (WellnessResponse wellness_score wellness_data recommendations).

(** ** Level classifiers *)

Definition determine_education_level {num : Type}
    (activity_count : Z) (avg_progress : num) : string :=
  if (activity_count =? 0)%Z then "Beginner"
  else if (activity_count <? 5)%Z then "Explorer"
  else if (activity_count <? 10)%Z then "Learner"
  else if (activity_count <? 20)%Z then "Scholar"
  else "Expert".

Definition determine_health_status {num : Type} `{!PyNum num}
    (avg_score : num) : string :=
  if (avg_score >=? of_int 80)%py then "Excellent"
  else if (avg_score >=? of_int 60)%py then "Good"
  else if (avg_score >=? of_int 40)%py then "Fair"
  else "Needs Improvement".

(** ** The mental-health analysis (app.py, [analyze_mental_health])

    Classifier output fed to the mood-score calculator, as the handler
    does for the [mood_score] field of its response. *)

Definition analyze_mental_health_mood_score {num : Type} `{!PyNum num}
    (mood_text : string) : num :=
  let '(sentiment, confidence) := analyze_sentiment mood_text in
  calculate_mood_score sentiment confidence.

(** ** More string builtins *)

(** [s.split(sep)] for a separator of one character. *)
Fixpoint str_split (sep : ascii) (s : string) : list string :=
  match s with
  | EmptyString => [EmptyString]
  | String c rest =>
      if Ascii.eqb c sep then EmptyString :: str_split sep rest
      else match str_split sep rest with
           | piece :: pieces => String c piece :: pieces
           | [] => [String c EmptyString]
           end
  end.

(** [sep.join(pieces)] *)
Fixpoint str_join (sep : string) (pieces : list string) : string :=
  match pieces with
  | [] => EmptyString
  | piece :: rest =>
      match rest with
      | [] => piece
      | _ :: _ => piece +:+ sep +:+ str_join sep rest
      end
  end.

(** [c.isspace()] for a code point below 256: tab to carriage return, the
    four information separators, the space, NEL and the no-break space. *)
Definition is_space (c : ascii) : bool :=
  let n := N_of_ascii c in
  ((9 <=? n) && (n <=? 13) || (28 <=? n) && (n <=? 32)
   || (n =? 133) || (n =? 160))%N.

(** [s.lstrip()], [s.rstrip()] and [s.strip()] *)
Fixpoint str_lstrip (s : string) : string :=
  match s with
  | EmptyString => EmptyString
  | String c rest => if is_space c then str_lstrip rest else s
  end.

Fixpoint str_rstrip (s : string) : string :=
  match s with
  | EmptyString => EmptyString
  | String c rest =>
      match str_rstrip rest with
      | EmptyString => if is_space c then EmptyString else String c EmptyString
      | String _ _ as kept => String c kept
      end
  end.

Definition str_strip (s : string) : string := str_rstrip (str_lstrip s).

Definition newline : string := String (ascii_of_N 10) EmptyString.

(** ** Request handlers

    A handler answers with a JSON body and a status.  [Success] carries
    the fields of a 200 answer, [Failure] the status and the text of an
    error answer.  A request field read with [data.get] is [None] when
    the key is absent.  [lastrowid] is what the record store did with the
    insertion: the id of the new row, or [None] when connecting,
    inserting or committing raised, which the handler's
    [except Exception] answers with 500. *)

Inductive reply (A : Type) : Type :=
| Success (body : A)
| Failure (status : Z) (error : string).
Arguments Success {A} _.
Arguments Failure {A} _ _.

(** *** Token check (app.py, [token_required]) *)

(** The three ways [jwt.decode] ends that the decorator tells apart. *)
Inductive jwt_result (V : Type) : Type :=
| Decoded (data : gmap string V)
| ExpiredSignatureError
| InvalidTokenError.
Arguments Decoded {V} _.
Arguments ExpiredSignatureError {V}.
Arguments InvalidTokenError {V}.

(** What the decorated function does: answer 401 itself, hand over to the
    handler, or let an exception escape. *)
Inductive guarded (R : Type) : Type :=
| Rejected (message : string) (status : Z)
| Passed (result : R)
| Escaped (exception : string).
Arguments Rejected {R} _ _.
Arguments Passed {R} _.
Arguments Escaped {R} _.

(** [token.split(' ')[1] if token.startswith('Bearer ') else token];
    [None] is the IndexError of the subscript. *)
Definition bearer_token (token : string) : option string :=
  if str_prefix "Bearer " token then str_split " " token !! 1%nat
  else Some token.

Definition token_required {V R : Type}
    (jwt_decode : string → jwt_result V) (f : V → R)
    (authorization : option string) : guarded R :=
  match authorization with
  | None | Some EmptyString => Rejected "Token is missing" 401
  | Some token =>
      match bearer_token token with
      | None => Escaped "IndexError"
      | Some token =>
          match jwt_decode token with
          | ExpiredSignatureError => Rejected "Token has expired" 401
          | InvalidTokenError => Rejected "Token is invalid" 401
          | Decoded data =>
              match data !! "user_id" with
              | None => Escaped "KeyError"
              | Some current_user_id => Passed (f current_user_id)
              end
          end
      end
  end.

(** *** Mental-health analysis (app.py, [analyze_mental_health])

    [advice] is what [get_random_advice] returned.  The [confidence]
    field of the answer, a percentage rounded to two decimals, is left
    out. *)

Module MentalHealth.

Record response (num : Type) : Type := Response {
  assessment_id : Z;
  sentiment : string;
  recommendations : list string;
  mood_score : num
}.
Arguments Response {num} _ _ _ _.
Arguments assessment_id {num} _.
Arguments sentiment {num} _.
Arguments recommendations {num} _.
Arguments mood_score {num} _.

End MentalHealth.

Definition analyze_mental_health {num : Type} `{!PyNum num}
    (mood_text : option string) (advice : string) (lastrowid : option Z)
    : reply (MentalHealth.response num) :=
  match mood_text with
  | None | Some EmptyString => Failure 400 "Mood text is required"
  | Some mood_text =>
      let '(sentiment, confidence) := analyze_sentiment mood_text in
      match generate_mental_health_recommendations sentiment confidence with
      | None => Failure 500 "Failed to analyze mental health"
      | Some recommendations =>
          let recommendations := recommendations ++ [advice] in
          match lastrowid with
          | None => Failure 500 "Failed to analyze mental health"
          | Some assessment_id =>
              Success (MentalHealth.Response assessment_id sentiment
                         recommendations
                         (calculate_mood_score sentiment confidence))
          end
      end
  end.

(** *** Meal plans (app.py, [generate_meal_plan])

    The part of the answer that does not come from the recipe service:
    the [meal_plan] text is left out. *)

Module MealPlan.

Record response : Type := Response {
  plan_id : Z;
  nutrition_score : Z;
  ingredients_used : list string;
  dietary_restrictions : string
}.

End MealPlan.

Definition generate_meal_plan
    (ingredients dietary_restrictions : option string)
    (lastrowid : option Z) : reply MealPlan.response :=
  let dietary_restrictions := default "none" dietary_restrictions in
  match ingredients with
  | None | Some EmptyString => Failure 400 "Ingredients are required"
  | Some ingredients =>
      let ingredient_list := map str_strip (str_split "," ingredients) in
      let nutrition_score :=
        calculate_nutrition_score ingredient_list dietary_restrictions in
      match lastrowid with
      | None => Failure 500 "Failed to generate meal plan"
      | Some plan_id =>
          Success (MealPlan.Response plan_id nutrition_score ingredient_list
                     dietary_restrictions)
      end
  end.

(** *** Food waste (app.py, [reduce_food_waste])

    The [environmental_impact] sentence of the answer is left out. *)

Module FoodWaste.

Record response : Type := Response {
  reduction_id : Z;
  suggestions : string;
  impact_score : Z;
  items_saved : Z
}.

End FoodWaste.

Definition reduce_food_waste
    (expiring_items : option string) (lastrowid : option Z)
    : reply FoodWaste.response :=
  match expiring_items with
  | None | Some EmptyString => Failure 400 "Expiring items are required"
  | Some expiring_items =>
      let suggestions :=
        "Food waste reduction ideas for " +:+ expiring_items +:+ ":"
        +:+ newline +:+ "1. Make smoothies"
        +:+ newline +:+ "2. Create soups"
        +:+ newline +:+ "3. Freeze leftovers"
        +:+ newline +:+ "4. Compost scraps" in
      let item_list := map str_strip (str_split "," expiring_items) in
      let impact_score := calculate_waste_impact_score item_list in
      match lastrowid with
      | None => Failure 500 "Failed to generate waste reduction suggestions"
      | Some reduction_id =>
          Success (FoodWaste.Response reduction_id suggestions impact_score
                     (len item_list))
      end
  end.

(** *** Progress summaries (app.py, [calculate_education_progress],
    [calculate_health_progress])

    [result] is the row fetched for the COUNT and AVG query; AVG is NULL,
    here [None], when no row matched.  The rounded average of the answer
    is left out. *)

(** [x or 0] on a count and on a number. *)
Definition int_or_zero (x : option Z) : Z :=
  match x with
  | Some v => if (v =? 0)%Z then 0%Z else v
  | None => 0%Z
  end.

Definition num_or_zero {num : Type} `{!PyNum num} (x : option num) : num :=
  match x with
  | Some v =>
      if (v >=? of_int 0)%py && (of_int 0 >=? v)%py then of_int 0 else v
  | None => of_int 0
  end.

Module EducationProgress.

Record summary : Type := Summary {
  total_activities : Z;
  level : string
}.

End EducationProgress.

Definition calculate_education_progress {num : Type} `{!PyNum num}
    (result : option Z * option num) : EducationProgress.summary :=
  let activity_count := int_or_zero result.1 in
  let avg_progress := num_or_zero result.2 in
  EducationProgress.Summary activity_count
    (determine_education_level activity_count avg_progress).

Module HealthProgress.

Record summary : Type := Summary {
  tracking_sessions : Z;
  status : string
}.

End HealthProgress.

Definition calculate_health_progress {num : Type} `{!PyNum num}
    (result : option Z * option num) : HealthProgress.summary :=
  let tracking_count := int_or_zero result.1 in
  let avg_score := num_or_zero result.2 in
  HealthProgress.Summary tracking_count (determine_health_status avg_score).

(** * Vocabulary of the statements *)

(** [w] occurs in [t]: [t] is some prefix, then [w], then some suffix. *)
Definition Substring (w t : string) : Prop :=
  ∃ pre post : string, t = pre +:+ w +:+ post.

(** [counts P l n]: exactly [n] members of [l], with repetitions, satisfy
    [P]. *)
Inductive counts {A : Type} (P : A → Prop) : list A → Z → Prop :=
| counts_nil : counts P [] 0
| counts_yes x l n : P x → counts P l n → counts P (x :: l) (n + 1)
| counts_no x l n : ¬ P x → counts P l n → counts P (x :: l) n.

Definition sleep_tip : string :=
  "Aim for 7-9 hours of quality sleep each night".
Definition exercise_tip : string :=
  "Try to get at least 30 minutes of physical activity daily".
Definition water_tip : string :=
  "Increase water intake to 8 glasses per day".

(** The closing remark, by the overall score. *)
Definition closing_remark (overall : Z) : string :=
  if decide (80 ≤ overall)%Z
  then "Great job maintaining excellent wellness habits!"
  else if decide (60 ≤ overall)%Z
  then "You're on the right track - small improvements can make a big difference"
  else "Focus on gradual improvements in sleep, exercise, and hydration".

(** The three sub-scores stored in the breakdown of a response. *)
Definition sub_scores {num : Type} (r : wellness_response num)
    : option (num * num * num) :=
  sleep_score ← breakdown r !! "sleep_score";
  exercise_score ← breakdown r !! "exercise_score";
  water_score ← breakdown r !! "water_score";
  Some (sleep_score, exercise_score, water_score).

(** The number of times the character [c] occurs in [s]. *)
Definition occurrences (c : ascii) (s : string) : Z :=
  len (List.filter (Ascii.eqb c) (list_ascii_of_string s)).

(** [s] neither starts nor ends with white space. *)
Definition trimmed (s : string) : Prop :=
  ∀ (c : ascii) (rest : string),
    (s = String c rest → is_space c = false) ∧
    (s = rest +:+ String c EmptyString → is_space c = false).

(** The education levels and the health statuses, in ascending order. *)
Definition education_rank (level : string) : Z :=
  if decide (level = "Beginner") then 0
  else if decide (level = "Explorer") then 1
  else if decide (level = "Learner") then 2
  else if decide (level = "Scholar") then 3
  else 4.

Definition health_rank (status : string) : Z :=
  if decide (status = "Needs Improvement") then 0
  else if decide (status = "Fair") then 1
  else if decide (status = "Good") then 2
  else 3.

(** * Properties *)

(** ** Substring search *)

Lemma append_cons (a : ascii) (s t : string) :
  String a s +:+ t = String a (s +:+ t).
Proof. reflexivity. Qed.

Lemma str_prefix_true_iff (w t : string) :
  str_prefix w t = true ↔ ∃ post, t = w +:+ post.
Proof.
  revert t; induction w as [|a w IH]; intros t.
  - split; [intros _; by exists t | done].
  - destruct t as [|b t]; simpl.
    + split; [done | intros [post Hp]; discriminate].
    + rewrite andb_true_iff, Ascii.eqb_eq, IH. split.
      * intros [-> [post ->]]. by exists post.
      * intros [post Hp]. rewrite append_cons in Hp.
        injection Hp as -> ->. split; [done | by exists post].
Qed.

Lemma str_in_true_iff (w t : string) : str_in w t = true ↔ Substring w t.
Proof.
  induction t as [|b t IH]; simpl; destruct (str_prefix w _) eqn:Hp.
  - split; [intros _ | done].
    apply str_prefix_true_iff in Hp as [post Hp]. by exists "", post.
  - split; [done | intros ([|c pre] & post & Hs); [|discriminate]].
    rewrite <- Hp. apply str_prefix_true_iff. by exists post.
  - split; [intros _ | done].
    apply str_prefix_true_iff in Hp as [post Hp]. by exists "", post.
  - rewrite IH. split.
    + intros (pre & post & ->). by exists (String b pre), post.
    + intros ([|c pre] & post & Hs).
      * apply not_true_iff_false in Hp. destruct Hp.
        apply str_prefix_true_iff. by exists post.
      * rewrite append_cons in Hs. injection Hs as -> ->. by exists pre, post.
Qed.

Lemma str_in_false_iff (w t : string) : str_in w t = false ↔ ¬ Substring w t.
Proof.
  rewrite <- str_in_true_iff. by destruct (str_in w t).
Qed.

(** ** Counting the members of a list that satisfy a property *)

Lemma py_sum_from (l : list Z) (a : Z) :
  fold_left Z.add l a = (a + py_sum l)%Z.
Proof.
  unfold py_sum. revert a; induction l as [|x l IH]; intros a; simpl.
  - lia.
  - rewrite (IH (a + x)%Z), (IH (0 + x)%Z). lia.
Qed.

Lemma py_sum_cons (x : Z) (l : list Z) : py_sum (x :: l) = (x + py_sum l)%Z.
Proof. unfold py_sum at 1; simpl. apply py_sum_from. Qed.

Lemma py_sum_const (c : Z) {A : Type} (l : list A) :
  py_sum (map (λ _, c) l) = (c * len l)%Z.
Proof.
  unfold len. induction l as [|x l IH].
  - simpl. unfold py_sum; simpl. lia.
  - cbn [map length]. rewrite py_sum_cons, IH. lia.
Qed.

Lemma counts_filter {A : Type} (P : A → Prop) (f : A → bool) (l : list A) :
  (∀ x, f x = true ↔ P x) →
  counts P l (len (List.filter f l)).
Proof.
  intros Hf. unfold len. induction l as [|x l IH]; simpl.
  - constructor.
  - destruct (f x) eqn:Hx.
    + cbn [length]. rewrite Nat2Z.inj_succ, <- Z.add_1_r.
      apply counts_yes; [by apply Hf | done].
    + apply counts_no; [|done]. rewrite <- Hf. congruence.
Qed.

Lemma counts_functional {A : Type} (P : A → Prop) (l : list A) (n m : Z) :
  counts P l n → counts P l m → n = m.
Proof.
  intros Hn; revert m; induction Hn; intros m Hm; inversion Hm; subst;
    try done; f_equal; auto.
Qed.

Lemma counts_bounds {A : Type} (P : A → Prop) (l : list A) (n : Z) :
  counts P l n → (0 ≤ n ≤ len l)%Z.
Proof.
  unfold len. induction 1; cbn [length]; lia.
Qed.

(** ** The sentiment classifier *)

Lemma keyword_hits (t : string) (ws : list string) :
  counts (λ w, Substring w t) ws
         (py_sum (map (λ _, 1%Z) (List.filter (λ w, str_in w t) ws))).
Proof.
  rewrite py_sum_const, Z.mul_1_l.
  apply counts_filter. intros w. apply str_in_true_iff.
Qed.

(** C1: the classifier lower-cases the text, counts the positive keywords
    (P) and the negative keywords (N) that occur in it as substrings, and
    answers POSITIVE/0.7 when P > N, NEGATIVE/0.7 when N > P and
    NEUTRAL/0.6 when P = N.  It is a total function, and the empty text is
    NEUTRAL/0.6.  The statement holds for every carrier of Python numbers. *)
Theorem analyze_sentiment_spec {num : Type} `{!PyNum num} :
  (∀ text : string, ∃ P N : Z,
      counts (λ w, Substring w (str_lower text)) positive_words P ∧
      counts (λ w, Substring w (str_lower text)) negative_words N ∧
      ((P > N)%Z → analyze_sentiment text = ("POSITIVE", lit 0.7)) ∧
      ((N > P)%Z → analyze_sentiment text = ("NEGATIVE", lit 0.7)) ∧
      (P = N → analyze_sentiment text = ("NEUTRAL", lit 0.6)))
  ∧ analyze_sentiment "" = ("NEUTRAL", lit 0.6).
Proof.
  split; [|reflexivity].
  intros text.
  eexists _, _. split; [apply keyword_hits|]. split; [apply keyword_hits|].
  unfold analyze_sentiment.
  set (P := py_sum _). set (N := py_sum _).
  destruct (Z.gtb_spec P N) as [HPN|HPN].
  - split_and!; intros; (done || lia).
  - destruct (Z.gtb_spec N P) as [HNP|HNP]; split_and!; intros; (done || lia).
Qed.

(** ** Exact arithmetic: comparisons, [min], [max] and [round] *)

Section ExactNumbers.

Local Open Scope Q_scope.

Lemma lt_Q_true (a b : Q) : (a <? b)%py = true ↔ a < b.
Proof.
  cbn. rewrite negb_true_iff, <- not_true_iff_false, Qle_bool_iff.
  split; [apply Qnot_le_lt | apply Qlt_not_le].
Qed.

Lemma lt_Q_false (a b : Q) : (a <? b)%py = false ↔ b <= a.
Proof.
  cbn. rewrite negb_false_iff. apply Qle_bool_iff.
Qed.

Lemma ge_Q_true (a b : Q) : (a >=? b)%py = true ↔ b <= a.
Proof. cbn. apply Qle_bool_iff. Qed.

Lemma ge_Q_false (a b : Q) : (a >=? b)%py = false ↔ a < b.
Proof.
  cbn. rewrite <- not_true_iff_false, Qle_bool_iff.
  split; [apply Qnot_le_lt | apply Qlt_not_le].
Qed.

Lemma py_min_Q_cases (a b : Q) :
  (b < a ∧ py_min a b = b) ∨ (a <= b ∧ py_min a b = a).
Proof.
  unfold py_min. destruct (b <? a)%py eqn:Hlt.
  - left. by apply lt_Q_true in Hlt.
  - right. by apply lt_Q_false in Hlt.
Qed.

Lemma py_max_Q_cases (a b : Q) :
  (a < b ∧ py_max a b = b) ∨ (b <= a ∧ py_max a b = a).
Proof.
  unfold py_max. destruct (a <? b)%py eqn:Hlt.
  - left. by apply lt_Q_true in Hlt.
  - right. by apply lt_Q_false in Hlt.
Qed.

(** The builtins agree with the library's [Qmin] and [Qmax]. *)
Lemma py_min_Qmin (a b : Q) : py_min a b == Qmin a b.
Proof.
  destruct (py_min_Q_cases a b) as [[H ->]|[H ->]];
    destruct (Q.min_spec a b) as [[H' ->]|[H' ->]]; lra.
Qed.

Lemma py_max_Qmax (a b : Q) : py_max a b == Qmax a b.
Proof.
  destruct (py_max_Q_cases a b) as [[H ->]|[H ->]];
    destruct (Q.max_spec a b) as [[H' ->]|[H' ->]]; lra.
Qed.

(** [round] returns an integer nearest to its argument. *)
Lemma round_half_even_nearest (x : Q) :
  x - (1 # 2) <= inject_Z (round_half_even x) <= x + (1 # 2).
Proof.
  unfold round_half_even.
  pose proof (Qfloor_le x) as Hlo. pose proof (Qlt_floor x) as Hhi.
  rewrite inject_Z_plus in Hhi. change (inject_Z 1) with 1 in Hhi.
  destruct (Qcompare_spec (x - inject_Z (Qfloor x)) (1 # 2)) as [He|Hl|Hg].
  - destruct (Z.even (Qfloor x)).
    + lra.
    + rewrite inject_Z_plus. change (inject_Z 1) with 1. lra.
  - lra.
  - rewrite inject_Z_plus. change (inject_Z 1) with 1. lra.
Qed.

(** On a tie the even neighbour is taken. *)
Lemma round_half_even_tie (x : Q) :
  x - inject_Z (Qfloor x) == 1 # 2 → Z.even (round_half_even x) = true.
Proof.
  intros He. unfold round_half_even.
  apply Qeq_alt in He. rewrite He.
  destruct (Z.even (Qfloor x)) eqn:Hev; [done|].
  rewrite Z.even_add, Hev. done.
Qed.

Lemma round_half_even_between (a b : Z) (x : Q) :
  inject_Z a <= x <= inject_Z b → (a ≤ round_half_even x ≤ b)%Z.
Proof.
  intros [Ha Hb].
  pose proof (Qfloor_resp_le _ _ Ha) as Hfa. rewrite Qfloor_Z in Hfa.
  pose proof (Qfloor_resp_le _ _ Hb) as Hfb. rewrite Qfloor_Z in Hfb.
  assert (Hup : x - inject_Z (Qfloor x) > 0 → (Qfloor x + 1 ≤ b)%Z).
  { intros Hpos. destruct (Z.eq_dec (Qfloor x) b) as [Heq|]; [|lia].
    pose proof (Qfloor_le x) as Hlo. rewrite Heq in Hpos. lra. }
  unfold round_half_even.
  destruct (Qcompare_spec (x - inject_Z (Qfloor x)) (1 # 2)) as [He|Hl|Hg].
  - destruct (Z.even (Qfloor x)); [lia|]. split; [lia|]. apply Hup. lra.
  - lia.
  - split; [lia|]. apply Hup. lra.
Qed.

Lemma round_half_even_inject (z : Z) : round_half_even (inject_Z z) = z.
Proof.
  assert (z ≤ round_half_even (inject_Z z) ≤ z)%Z; [|lia].
  apply round_half_even_between. lra.
Qed.

End ExactNumbers.

(** Case analysis on every [py_min] and [py_max] over [Q] in the goal. *)
Ltac py_minmax_cases :=
  repeat match goal with
    | |- context [py_min ?a ?b] =>
        let H := fresh "Hmin" in
        destruct (py_min_Q_cases a b) as [[H ->]|[H ->]]
    | |- context [py_max ?a ?b] =>
        let H := fresh "Hmax" in
        destruct (py_max_Q_cases a b) as [[H ->]|[H ->]]
    end.

(** ** Binary64 comparisons *)

Lemma ltb_leb_binary64 (a b : float) :
  PrimFloat.ltb a b = true → PrimFloat.leb a b = true.
Proof.
  rewrite FloatAxioms.ltb_spec, FloatAxioms.leb_spec. unfold SFltb, SFleb.
  destruct (SFcompare _ _) as [[]|]; congruence.
Qed.

(** [max(10, min(100, x))] stays within [10, 100] for every binary64 [x],
    infinities and NaN included. *)
Lemma clamp_binary64_range (x : float) :
  let score := py_max (of_int 10) (py_min (of_int 100) x) in
  PrimFloat.leb 10 score && PrimFloat.leb score 100 = true.
Proof.
  unfold py_max, py_min. cbn [lt float_PyNum].
  change (of_int 10) with 10%float. change (of_int 100) with 100%float.
  destruct (PrimFloat.ltb x 100) eqn:Hx;
    destruct (PrimFloat.ltb 10 _) eqn:Hlo;
    apply andb_true_iff; split;
    first [by apply ltb_leb_binary64 | by vm_compute].
Qed.

(** ** The mood score *)

Lemma base_score_lookup (sentiment : string) :
  default 60%Z (base_scores !! sentiment) =
    if decide (sentiment = "POSITIVE") then 85%Z
    else if decide (sentiment = "NEGATIVE") then 35%Z
    else 60%Z.
Proof.
  unfold base_scores. repeat case_decide; subst; try done.
  destruct (decide (sentiment = "NEUTRAL")) as [->|]; [done|].
  by rewrite !lookup_insert_ne, lookup_singleton_ne.
Qed.

Lemma calculate_mood_score_Q (sentiment : string) (c : Q) :
  calculate_mood_score sentiment c =
    py_max 10%Q
      (py_min 100%Q
         (inject_Z (default 60%Z (base_scores !! sentiment))
          + (c - 0.5) * 20)%Q).
Proof. reflexivity. Qed.

(** C5: for a fixed label the mood score is
    max(10, min(100, base + (confidence - 0.5) * 20)) with base 85 for
    POSITIVE, 60 for NEUTRAL and 35 for NEGATIVE; it lies in [10, 100] and
    does not decrease when the confidence grows.  The range also holds for
    every binary64 confidence. *)
Theorem calculate_mood_score_spec (sentiment : string) :
  ∃ base : Z,
    (sentiment = "POSITIVE" → base = 85%Z) ∧
    (sentiment = "NEUTRAL" → base = 60%Z) ∧
    (sentiment = "NEGATIVE" → base = 35%Z) ∧
    (∀ c : Q,
        calculate_mood_score sentiment c
        == Qmax 10 (Qmin 100 (inject_Z base + (c - 0.5) * 20)))%Q ∧
    (∀ c : Q, 10 <= calculate_mood_score sentiment c <= 100)%Q ∧
    (∀ c1 c2 : Q,
        c1 <= c2 →
        calculate_mood_score sentiment c1 <= calculate_mood_score sentiment c2)%Q ∧
    (∀ c : float,
        let score := calculate_mood_score sentiment c in
        PrimFloat.leb 10 score && PrimFloat.leb score 100 = true).
Proof.
  exists (default 60%Z (base_scores !! sentiment)).
  split_and!; [..|intros c; apply clamp_binary64_range].
  - intros ->. by rewrite base_score_lookup.
  - intros ->. by rewrite base_score_lookup.
  - intros ->. by rewrite base_score_lookup.
  - intros c. rewrite calculate_mood_score_Q.
    set (x := (inject_Z _ + _)%Q).
    destruct (Q.min_spec 100 x) as [[? Hm]|[? Hm]];
      destruct (Q.max_spec 10 (Qmin 100 x)) as [[? HM]|[? HM]];
      rewrite HM; py_minmax_cases; lra.
  - intros c. rewrite calculate_mood_score_Q. py_minmax_cases; lra.
  - intros c1 c2 Hc. rewrite !calculate_mood_score_Q. py_minmax_cases; lra.
Qed.

Lemma calculate_mood_score_mono_example :
  (calculate_mood_score "NEUTRAL" 0.6%Q <= calculate_mood_score "NEUTRAL" 0.9%Q)%Q.
Proof.
  destruct (calculate_mood_score_spec "NEUTRAL")
    as (_ & _ & _ & _ & _ & _ & H & _).
  apply H. lra.
Defined.

(** ** Classifier output fed to the mood score *)

Lemma analyze_sentiment_cases (text : string) :
  ∃ (label : string) (q : Q),
    (label, q) ∈ [("POSITIVE", 0.7%Q); ("NEGATIVE", 0.7%Q); ("NEUTRAL", 0.6%Q)] ∧
    ∀ (num : Type) (H : PyNum num),
      analyze_sentiment (num:=num) text = (label, lit q).
Proof.
  unfold analyze_sentiment.
  set (P := py_sum _). set (N := py_sum _).
  destruct (P >? N)%Z; [|destruct (N >? P)%Z].
  - exists "POSITIVE", 0.7%Q. split; [set_solver | done].
  - exists "NEGATIVE", 0.7%Q. split; [set_solver | done].
  - exists "NEUTRAL", 0.6%Q. split; [set_solver | done].
Qed.

(** C10: whatever the text, the mood score computed from the classifier's
    output is 89 for a POSITIVE text, 62 for a NEUTRAL one and 39 for a
    NEGATIVE one, in exact arithmetic and in binary64 alike. *)
Theorem mood_score_of_classified_text (text : string) :
  let label := (analyze_sentiment (num:=Q) text).1 in
  (label = "POSITIVE" ∧
   (analyze_mental_health_mood_score (num:=Q) text == 89)%Q ∧
   analyze_mental_health_mood_score (num:=float) text = 89%float) ∨
  (label = "NEUTRAL" ∧
   (analyze_mental_health_mood_score (num:=Q) text == 62)%Q ∧
   analyze_mental_health_mood_score (num:=float) text = 62%float) ∨
  (label = "NEGATIVE" ∧
   (analyze_mental_health_mood_score (num:=Q) text == 39)%Q ∧
   analyze_mental_health_mood_score (num:=float) text = 39%float).
Proof.
  destruct (analyze_sentiment_cases text) as (label & q & Hin & Hrun).
  unfold analyze_mental_health_mood_score. rewrite !Hrun. cbn [fst].
  apply list_elem_of_In in Hin.
  destruct Hin as [Heq|[Heq|[Heq|[]]]]; injection Heq as <- <-.
  - left. split_and!; [done | by vm_compute | by vm_compute].
  - right; right. split_and!; [done | by vm_compute | by vm_compute].
  - right; left. split_and!; [done | by vm_compute | by vm_compute].
Qed.

(** ** The nutrition score *)

Lemma healthy_ingredient_iff (ingredient : string) :
  existsb (λ healthy, str_in healthy (str_lower ingredient)) healthy_ingredients
    = true
  ↔ ∃ keyword : string,
      keyword ∈ ["vegetables"; "fruits"; "whole grains"; "lean protein"; "legumes"]
      ∧ Substring keyword (str_lower ingredient).
Proof.
  rewrite existsb_exists. unfold healthy_ingredients.
  split; intros (k & Hk & Hs); exists k.
  - split; [by apply list_elem_of_In | by apply str_in_true_iff].
  - split; [by apply list_elem_of_In | by apply str_in_true_iff].
Qed.

(** C4: the nutrition score is min(min(10 * count, 100) + 5 * h, 100),
    where h is the number of ingredients whose lower-cased text contains
    one of the five healthy keywords; the dietary restriction plays no
    part; ["vegetables"; "chicken"] scores 25. *)
Theorem calculate_nutrition_score_spec
    (ingredients : list string) (dietary_restrictions : string) :
  ∃ h : Z,
    counts (λ ingredient,
              ∃ keyword : string,
                keyword ∈ ["vegetables"; "fruits"; "whole grains";
                           "lean protein"; "legumes"]
                ∧ Substring keyword (str_lower ingredient))
           ingredients h ∧
    calculate_nutrition_score ingredients dietary_restrictions
      = Z.min (Z.min (len ingredients * 10) 100 + 5 * h) 100 ∧
    (∀ other : string,
        calculate_nutrition_score ingredients other
        = calculate_nutrition_score ingredients dietary_restrictions) ∧
    calculate_nutrition_score ["vegetables"; "chicken"] "none" = 25%Z.
Proof.
  eexists. split_and!.
  - apply counts_filter, healthy_ingredient_iff.
  - unfold calculate_nutrition_score. rewrite py_sum_const. lia.
  - done.
  - reflexivity.
Qed.

(** ** The level classifiers *)

(** C6: the education level depends on the activity count alone: 0 is
    Beginner, 1-4 Explorer, 5-9 Learner, 10-19 Scholar, 20 and more Expert,
    whatever the average progress. *)
Theorem determine_education_level_spec
    {num : Type} (activity_count : Z) (avg_progress : num) :
  let level := determine_education_level activity_count avg_progress in
  (activity_count = 0%Z → level = "Beginner") ∧
  ((1 ≤ activity_count ≤ 4)%Z → level = "Explorer") ∧
  ((5 ≤ activity_count ≤ 9)%Z → level = "Learner") ∧
  ((10 ≤ activity_count ≤ 19)%Z → level = "Scholar") ∧
  ((20 ≤ activity_count)%Z → level = "Expert") ∧
  (∀ (num' : Type) (other : num'),
      determine_education_level activity_count other = level) ∧
  determine_education_level 4 avg_progress = "Explorer" ∧
  determine_education_level 5 avg_progress = "Learner".
Proof.
  intros level; subst level. unfold determine_education_level.
  split_and!; try done; intros H;
    repeat match goal with
      | |- context [(?a =? ?b)%Z] => destruct (Z.eqb_spec a b)
      | |- context [(?a <? ?b)%Z] => destruct (Z.ltb_spec a b)
      end; (done || lia).
Qed.

(** C7: the health status is Excellent from 80 up, Good from 60 up to but
    not including 80, Fair from 40 up to but not including 60, and Needs
    Improvement below 40; 80 is Excellent and 79.99 is Good, for exact
    numbers and for binary64 floats. *)
Theorem determine_health_status_spec (avg_score : Q) :
  ((80 <= avg_score)%Q → determine_health_status avg_score = "Excellent") ∧
  ((60 <= avg_score < 80)%Q → determine_health_status avg_score = "Good") ∧
  ((40 <= avg_score < 60)%Q → determine_health_status avg_score = "Fair") ∧
  ((avg_score < 40)%Q →
   determine_health_status avg_score = "Needs Improvement") ∧
  determine_health_status 80%Q = "Excellent" ∧
  determine_health_status 79.99%Q = "Good" ∧
  determine_health_status (num:=float) (of_int 80) = "Excellent" ∧
  determine_health_status (num:=float) (lit 79.99%Q) = "Good".
Proof.
  unfold determine_health_status.
  split_and!; try (by vm_compute); intros H;
    repeat match goal with
      | |- context [(?a >=? ?b)%py] =>
          let E := fresh "E" in
          destruct (a >=? b)%py eqn:E;
          [apply ge_Q_true in E | apply ge_Q_false in E];
          cbn [of_int Q_PyNum] in E; unfold inject_Z in E
      end; first [done | exfalso; lra].
Qed.

(** ** The mental-health recommendation table *)

(** C9: the recommendations are one of three fixed lists, of three entries
    for POSITIVE, four for NEGATIVE and four for NEUTRAL; every other label
    gets the NEUTRAL list, so the result is never empty.  The call does not
    fail. *)
Theorem generate_mental_health_recommendations_spec :
  ∃ positive negative neutral : list string,
    length positive = 3%nat ∧ length negative = 4%nat ∧
    length neutral = 4%nat ∧
    ∀ (num : Type) (sentiment : string) (confidence : num),
      ∃ result : list string,
        generate_mental_health_recommendations sentiment confidence
          = Some result ∧
        (sentiment = "POSITIVE" → result = positive) ∧
        (sentiment = "NEGATIVE" → result = negative) ∧
        (sentiment = "NEUTRAL" → result = neutral) ∧
        (sentiment ∉ ["POSITIVE"; "NEGATIVE"; "NEUTRAL"] → result = neutral) ∧
        result ≠ [].
Proof.
  exists (default [] (mental_health_table !! "POSITIVE")),
         (default [] (mental_health_table !! "NEGATIVE")),
         (default [] (mental_health_table !! "NEUTRAL")).
  split_and!; [reflexivity..|]. intros num sentiment confidence.
  destruct (decide (sentiment ∈ ["POSITIVE"; "NEGATIVE"; "NEUTRAL"]))
    as [Hin|Hout].
  - apply list_elem_of_In in Hin.
    destruct Hin as [<-|[<-|[<-|[]]]];
      (eexists; split; [reflexivity|]);
      split_and!; intros; first [done | set_solver | by vm_compute].
  - assert (Hnone : mental_health_table !! sentiment = None).
    { unfold mental_health_table.
      rewrite !lookup_insert_ne, lookup_singleton_ne; set_solver. }
    unfold generate_mental_health_recommendations. cbv zeta. rewrite Hnone.
    eexists; split; [reflexivity|].
    split_and!; intros; first [done | set_solver | by vm_compute].
Qed.

(** ** The wellness recommendations *)

Lemma generate_wellness_recommendations_run {num : Type} `{!PyNum num}
    (overall : Z) (d : gmap string num) (s e w : num) :
  d !! "sleep_score" = Some s →
  d !! "exercise_score" = Some e →
  d !! "water_score" = Some w →
  generate_wellness_recommendations overall d =
    Some ((if (s <? of_int 70)%py then [sleep_tip] else [])
          ++ (if (e <? of_int 70)%py then [exercise_tip] else [])
          ++ (if (w <? of_int 70)%py then [water_tip] else [])
          ++ [closing_remark overall]).
Proof.
  intros Hs He Hw. unfold generate_wellness_recommendations, closing_remark.
  rewrite Hs, He, Hw. cbn [mbind option_bind].
  rewrite !Z.geb_leb.
  destruct (s <? of_int 70)%py, (e <? of_int 70)%py, (w <? of_int 70)%py;
    destruct (Z.leb_spec 80 overall), (Z.leb_spec 60 overall);
    repeat case_decide; (reflexivity || lia).
Qed.

(** C8: given the three sub-scores of the breakdown, the recommendations
    are the sleep tip if the sleep score is below 70, then the exercise tip
    if the exercise score is below 70, then the hydration tip if the water
    score is below 70, then one closing remark picked by the overall score
    (at least 80, at least 60, below 60): between one and four entries. *)
Theorem generate_wellness_recommendations_spec
    (overall : Z) (wellness_data : gmap string Q)
    (sleep_score exercise_score water_score : Q) :
  wellness_data !! "sleep_score" = Some sleep_score →
  wellness_data !! "exercise_score" = Some exercise_score →
  wellness_data !! "water_score" = Some water_score →
  ∃ result : list string,
    generate_wellness_recommendations overall wellness_data = Some result ∧
    result =
      (if Qlt_le_dec sleep_score 70 then [sleep_tip] else [])
      ++ (if Qlt_le_dec exercise_score 70 then [exercise_tip] else [])
      ++ (if Qlt_le_dec water_score 70 then [water_tip] else [])
      ++ [if decide (80 ≤ overall)%Z
          then "Great job maintaining excellent wellness habits!"
          else if decide (60 ≤ overall)%Z
          then "You're on the right track - small improvements can make a big difference"
          else "Focus on gradual improvements in sleep, exercise, and hydration"] ∧
    (0 ≤ length result ≤ 4)%nat ∧ (1 ≤ length result)%nat.
Proof.
  intros Hs He Hw. eexists. split.
  { by apply generate_wellness_recommendations_run. }
  assert (Hlt : ∀ x : Q, (x <? of_int 70)%py = if Qlt_le_dec x 70 then true else false).
  { intros x. destruct (Qlt_le_dec x 70) as [H|H].
    - by apply lt_Q_true.
    - by apply lt_Q_false. }
  rewrite !Hlt. fold (closing_remark overall).
  destruct (Qlt_le_dec sleep_score 70), (Qlt_le_dec exercise_score 70),
    (Qlt_le_dec water_score 70); cbn; split_and!; (reflexivity || lia).
Qed.

Lemma generate_wellness_recommendations_example :
  generate_wellness_recommendations (num:=Q) 83
    {[ "sleep_score" := 50%Q; "exercise_score" := 100%Q;
       "water_score" := 62.5%Q ]}
  = Some [sleep_tip; water_tip;
          "Great job maintaining excellent wellness habits!"].
Proof.
  destruct (generate_wellness_recommendations_spec 83
              {[ "sleep_score" := 50%Q; "exercise_score" := 100%Q;
                 "water_score" := 62.5%Q ]} 50%Q 100%Q 62.5%Q)
    as (result & Hrun & -> & _); [reflexivity..|].
  exact Hrun.
Defined.

(** ** Wellness tracking *)

Lemma track_wellness_run {num : Type} `{!PyNum num}
    (sleep_hours exercise_minutes water_glasses : num) (overall : Z) :
  let sleep_score :=
    py_min ((sleep_hours / of_int 8) * of_int 100)%py (of_int 100) in
  let exercise_score :=
    py_min ((exercise_minutes / of_int 30) * of_int 100)%py (of_int 100) in
  let water_score :=
    py_min ((water_glasses / of_int 8) * of_int 100)%py (of_int 100) in
  py_round ((sleep_score + exercise_score + water_score) / of_int 3)%py
    = Some overall →
  ∃ r : wellness_response num,
    track_wellness sleep_hours exercise_minutes water_glasses = Some r ∧
    wellness_score r = overall ∧
    sub_scores r = Some (sleep_score, exercise_score, water_score) ∧
    generate_wellness_recommendations overall (breakdown r)
      = Some (recommendations r).
Proof.
  intros ss es ws Hround. unfold track_wellness.
  fold ss es ws. rewrite Hround. cbn [mbind option_bind].
  set (d := (<[ "sleep_hours" := _ ]> _ : gmap string num)).
  assert (Hs : d !! "sleep_score" = Some ss) by reflexivity.
  assert (He : d !! "exercise_score" = Some es) by reflexivity.
  assert (Hw : d !! "water_score" = Some ws) by reflexivity.
  rewrite (generate_wellness_recommendations_run overall d ss es ws Hs He Hw).
  eexists. split; [reflexivity|]. cbn [wellness_score breakdown recommendations].
  split_and!; [done| |by apply generate_wellness_recommendations_run].
  unfold sub_scores. cbn [breakdown]. by rewrite Hs, He, Hw.
Qed.

Lemma Qfloor_half (k : Z) (x : Q) :
  (x == inject_Z k + (1 # 2))%Q → Qfloor x = k.
Proof.
  intros Hx.
  pose proof (Qfloor_le x) as Hlo. pose proof (Qlt_floor x) as Hhi.
  assert (Hlt1 : (inject_Z (Qfloor x) < inject_Z (k + 1))%Q).
  { rewrite inject_Z_plus. change (inject_Z 1) with 1%Q. lra. }
  assert (Hlt2 : (inject_Z k < inject_Z (Qfloor x + 1))%Q) by lra.
  rewrite <- Zlt_Qlt in Hlt1, Hlt2. lia.
Qed.

(** When [round] raises, on an average that is not a number or is
    infinite, the computation fails: the handler answers 500. *)
Lemma track_wellness_fails {num : Type} `{!PyNum num}
    (sleep_hours exercise_minutes water_glasses : num) :
  let sleep_score :=
    py_min ((sleep_hours / of_int 8) * of_int 100)%py (of_int 100) in
  let exercise_score :=
    py_min ((exercise_minutes / of_int 30) * of_int 100)%py (of_int 100) in
  let water_score :=
    py_min ((water_glasses / of_int 8) * of_int 100)%py (of_int 100) in
  py_round ((sleep_score + exercise_score + water_score) / of_int 3)%py = None →
  track_wellness sleep_hours exercise_minutes water_glasses = None.
Proof.
  intros ss es ws Hround. unfold track_wellness. fold ss es ws.
  by rewrite Hround.
Qed.

(** A reading can be a finite number and still leave the handler without
    scores: at -1e308 hours the sleep score overflows to minus infinity,
    so does the average, and [round] raises; a reading that is not a
    number does the same. *)
Lemma track_wellness_no_result :
  is_Some (Binary64.to_Q (lit (-1e308))) ∧
  track_wellness (num:=float) (lit (-1e308)) (of_int 30) (of_int 8) = None ∧
  track_wellness PrimFloat.nan (of_int 30) (of_int 8) = None.
Proof.
  split_and!.
  - vm_compute. by eexists.
  - apply track_wellness_fails. by vm_compute.
  - apply track_wellness_fails. by vm_compute.
Qed.

(** C3, as the code has it: in the binary64 arithmetic of the handler,
    for all readings, the three sub-scores are hours / 8 * 100,
    minutes / 30 * 100 and glasses / 8 * 100, each replaced by 100 when it
    exceeds 100; when their average is finite the overall score is the
    integer nearest to it (the even one when it lies halfway between two
    integers), and when it is not a number or is infinite there are no
    scores.  (8, 30, 8) gives 100 four times and (0, 0, 0) gives 0 four
    times; (1.1, 16.5, 2.3) gives 33, where the average is just above
    32.5. *)
Theorem track_wellness_spec :
  (∀ sleep_hours exercise_minutes water_glasses : float,
      let capped (x : float) : float :=
        if PrimFloat.ltb 100 x then 100%float else x in
      let sleep_score := capped (sleep_hours / 8 * 100)%float in
      let exercise_score := capped (exercise_minutes / 30 * 100)%float in
      let water_score := capped (water_glasses / 8 * 100)%float in
      let average :=
        ((sleep_score + exercise_score + water_score) / 3)%float in
      (∀ exact : Q,
          Binary64.to_Q average = Some exact →
          ∃ r : wellness_response float,
            track_wellness sleep_hours exercise_minutes water_glasses
            = Some r ∧
            sub_scores r = Some (sleep_score, exercise_score, water_score) ∧
            wellness_score r = round_half_even exact ∧
            (exact - (1 # 2) <= inject_Z (wellness_score r)
             <= exact + (1 # 2))%Q ∧
            ((∃ k : Z, exact == inject_Z k + (1 # 2))%Q →
             Z.even (wellness_score r) = true)) ∧
      (Binary64.to_Q average = None →
       track_wellness sleep_hours exercise_minutes water_glasses = None)) ∧
  (∃ r : wellness_response float,
      track_wellness (of_int 8) (of_int 30) (of_int 8) = Some r ∧
      sub_scores r = Some (100, 100, 100)%float ∧
      wellness_score r = 100%Z) ∧
  (∃ r : wellness_response float,
      track_wellness (of_int 0) (of_int 0) (of_int 0) = Some r ∧
      sub_scores r = Some (0, 0, 0)%float ∧
      wellness_score r = 0%Z) ∧
  (∃ r : wellness_response float,
      track_wellness (lit 1.1) (lit 16.5) (lit 2.3) = Some r ∧
      wellness_score r = 33%Z).
Proof.
  split_and!.
  - intros s e w capped ss es ws average. split.
    + intros exact Hq.
      destruct (track_wellness_run s e w (round_half_even exact))
        as (r & Hr & Ho & Hsub & _).
      { change (Binary64.round average = Some (round_half_even exact)).
        unfold Binary64.round. by rewrite Hq. }
      exists r. split_and!; [exact Hr | exact Hsub | exact Ho | ..].
      * rewrite Ho. apply round_half_even_nearest.
      * rewrite Ho. apply round_half_even_nearest.
      * rewrite Ho. intros [k Hk]. apply round_half_even_tie.
        rewrite (Qfloor_half k _ Hk). lra.
    + intros Hq. apply track_wellness_fails.
      change (Binary64.round average = None).
      unfold Binary64.round. by rewrite Hq.
  - destruct (track_wellness_run (num:=float)
                (of_int 8) (of_int 30) (of_int 8) 100)
      as (r & Hr & Ho & Hsub & _); [by vm_compute|].
    exists r. split_and!; [exact Hr | by rewrite Hsub; vm_compute | exact Ho].
  - destruct (track_wellness_run (num:=float)
                (of_int 0) (of_int 0) (of_int 0) 0)
      as (r & Hr & Ho & Hsub & _); [by vm_compute|].
    exists r. split_and!; [exact Hr | by rewrite Hsub; vm_compute | exact Ho].
  - destruct (track_wellness_run (num:=float)
                (lit 1.1) (lit 16.5) (lit 2.3) 33)
      as (r & Hr & Ho & _); [by vm_compute|].
    exists r. split; [exact Hr | exact Ho].
Qed.

Lemma track_wellness_spec_example :
  ∃ r : wellness_response float,
    track_wellness (lit 7.5) (of_int 20) (of_int 6) = Some r ∧
    wellness_score r = 78%Z.
Proof.
  destruct track_wellness_spec as (Hall & _).
  edestruct (Hall (lit 7.5) (of_int 20) (of_int 6)) as [Hsome _].
  edestruct Hsome as (r & Hr & _ & Hscore & _); [by vm_compute|].
  exists r. split; [exact Hr|]. rewrite Hscore. by vm_compute.
Defined.

(** ** Ranges of the scores *)






(** * Further properties of the code *)

(** ** The classifier sees keywords, not words *)

Lemma char_lower_idempotent (c : ascii) : char_lower (char_lower c) = char_lower c.
Proof. destruct c as [[] [] [] [] [] [] [] []]; reflexivity. Qed.

Lemma str_lower_idempotent (s : string) : str_lower (str_lower s) = str_lower s.
Proof.
  induction s as [|c s IH]; [done|].
  cbn [str_lower]. by rewrite char_lower_idempotent, IH.
Qed.

Lemma filter_agree {A : Type} (f g : A → bool) (l : list A) :
  (∀ x, x ∈ l → f x = g x) → List.filter f l = List.filter g l.
Proof.
  induction l as [|x l IH]; intros Hfg; [done|].
  cbn [List.filter]. rewrite (Hfg x) by left.
  rewrite IH; [done|]. intros y Hy. apply Hfg. by right.
Qed.

(** X1: two texts in which the same keywords occur get the same label and
    confidence: how often a keyword occurs, where, and in what case does
    not matter. *)
Theorem analyze_sentiment_keywords_only {num : Type} `{!PyNum num}
    (text1 text2 : string) :
  (∀ w : string,
      w ∈ positive_words ++ negative_words →
      Substring w (str_lower text1) ↔ Substring w (str_lower text2)) →
  analyze_sentiment text1 = analyze_sentiment text2.
Proof.
  intros Hsame.
  assert (Hin : ∀ w, w ∈ positive_words ++ negative_words →
                     str_in w (str_lower text1) = str_in w (str_lower text2)).
  { intros w Hw. apply Hsame in Hw. rewrite <- !str_in_true_iff in Hw.
    destruct (str_in w (str_lower text1)), (str_in w (str_lower text2));
      try done; [by apply proj1 in Hw; specialize (Hw eq_refl)
                | by apply proj2 in Hw; specialize (Hw eq_refl)]. }
  unfold analyze_sentiment.
  rewrite (filter_agree (λ w, str_in w (str_lower text1))
             (λ w, str_in w (str_lower text2)) positive_words).
  2: { intros w Hw. apply Hin, elem_of_app. by left. }
  rewrite (filter_agree (λ w, str_in w (str_lower text1))
             (λ w, str_in w (str_lower text2)) negative_words).
  2: { intros w Hw. apply Hin, elem_of_app. by right. }
  done.
Qed.

Lemma analyze_sentiment_keywords_only_example :
  analyze_sentiment (num:=Q) "So happy, happy, HAPPY; a bit sad"
  = analyze_sentiment (num:=Q) "unhappy and saddened".
Proof.
  apply analyze_sentiment_keywords_only.
  intros w Hw. rewrite <- !str_in_true_iff.
  apply list_elem_of_In in Hw. cbn in Hw.
  repeat (destruct Hw as [<-|Hw]; [by vm_compute|]). done.
Defined.

(** X2: the classifier ignores the case of ASCII letters: lower-casing the
    text beforehand changes nothing. *)
Theorem analyze_sentiment_case_insensitive {num : Type} `{!PyNum num}
    (text : string) :
  analyze_sentiment (str_lower text) = analyze_sentiment text.
Proof.
  unfold analyze_sentiment. by rewrite str_lower_idempotent.
Qed.

(** ** The mood score inside the confidence range *)

(** X3: for a confidence between 0 and 1 neither bound of the clamp applies:
    the score is base + (confidence - 0.5) * 20, where the base is 85 for
    POSITIVE, 35 for NEGATIVE and 60 for any other label, so it lies
    between 25 and 95. *)
Theorem calculate_mood_score_unclamped (sentiment : string) (confidence : Q) :
  (0 <= confidence <= 1)%Q →
  (calculate_mood_score sentiment confidence
   == (if decide (sentiment = "POSITIVE") then 85
       else if decide (sentiment = "NEGATIVE") then 35 else 60)
      + (confidence - 0.5) * 20)%Q ∧
  (25 <= calculate_mood_score sentiment confidence <= 95)%Q.
Proof.
  intros Hc. rewrite calculate_mood_score_Q, base_score_lookup.
  repeat case_decide; unfold inject_Z; py_minmax_cases; lra.
Qed.

Lemma calculate_mood_score_unclamped_example :
  (calculate_mood_score "NEGATIVE" 1%Q == 45)%Q.
Proof.
  destruct (calculate_mood_score_unclamped "NEGATIVE" 1%Q) as [H _]; [lra|].
  rewrite H. reflexivity.
Defined.

(** X4: at equal confidence a NEGATIVE text never scores above a NEUTRAL one,
    nor a NEUTRAL one above a POSITIVE one; a label that is none of the
    three, such as a lower-case one, is scored as NEUTRAL. *)
Theorem calculate_mood_score_by_label :
  (∀ confidence : Q,
      calculate_mood_score "NEGATIVE" confidence
      <= calculate_mood_score "NEUTRAL" confidence
      <= calculate_mood_score "POSITIVE" confidence)%Q ∧
  (∀ (num : Type) (H : PyNum num) (sentiment : string) (confidence : num),
      sentiment ≠ "POSITIVE" → sentiment ≠ "NEGATIVE" →
      calculate_mood_score sentiment confidence
      = calculate_mood_score "NEUTRAL" confidence) ∧
  calculate_mood_score "positive" 0.7%Q = calculate_mood_score "NEUTRAL" 0.7%Q.
Proof.
  split_and!.
  - intros c. rewrite !calculate_mood_score_Q, !base_score_lookup.
    repeat case_decide; try done. unfold inject_Z.
    split; py_minmax_cases; lra.
  - intros num H sentiment c Hp Hn. unfold calculate_mood_score.
    rewrite !base_score_lookup. by repeat case_decide.
  - reflexivity.
Qed.

(** ** The nutrition score as a function of the ingredient list *)

Lemma filter_length_Permutation {A : Type} (f : A → bool) (l1 l2 : list A) :
  l1 ≡ₚ l2 → length (List.filter f l1) = length (List.filter f l2).
Proof.
  induction 1 as [|x l1 l2 _ IH|x y l|l1 l2 l3 _ IH1 _ IH2]; cbn.
  - done.
  - destruct (f x); cbn; by rewrite IH.
  - destruct (f x), (f y); done.
  - by rewrite IH1.
Qed.

Lemma filter_length_le {A : Type} (f : A → bool) (l : list A) :
  (length (List.filter f l) ≤ length l)%nat.
Proof. induction l as [|x l IH]; cbn; [done|]. destruct (f x); cbn; lia. Qed.

Lemma calculate_nutrition_score_eq (ingredients : list string) (d : string) :
  calculate_nutrition_score ingredients d =
    Z.min 100
      (Z.min (len ingredients * 10) 100
       + 5 * len (List.filter
                    (λ ingredient,
                       existsb (λ healthy, str_in healthy (str_lower ingredient))
                               healthy_ingredients)
                    ingredients)).
Proof. unfold calculate_nutrition_score. by rewrite py_sum_const. Qed.

(** X5: the nutrition score does not depend on the order in which the
    ingredients are listed. *)
Theorem calculate_nutrition_score_Permutation
    (ingredients1 ingredients2 : list string) (dietary_restrictions : string) :
  ingredients1 ≡ₚ ingredients2 →
  calculate_nutrition_score ingredients1 dietary_restrictions
  = calculate_nutrition_score ingredients2 dietary_restrictions.
Proof.
  intros Hp. rewrite !calculate_nutrition_score_eq. unfold len.
  by rewrite (Permutation_length Hp), (filter_length_Permutation _ _ _ Hp).
Qed.

Lemma calculate_nutrition_score_Permutation_example :
  calculate_nutrition_score ["rice"; "Fresh Fruits"; "beans"] "vegan"
  = calculate_nutrition_score ["beans"; "rice"; "Fresh Fruits"] "vegan".
Proof.
  apply calculate_nutrition_score_Permutation.
  symmetry. apply (Permutation_cons_append ["rice"; "Fresh Fruits"] "beans").
Defined.

(** X6: with n ingredients the nutrition score lies between min(10 n, 100)
    and min(15 n, 100): an empty list scores 0, ten or more ingredients
    score 100, and a single ingredient scores 10 or 15. *)
Theorem calculate_nutrition_score_by_count
    (ingredients : list string) (dietary_restrictions : string) :
  (Z.min (10 * len ingredients) 100
   ≤ calculate_nutrition_score ingredients dietary_restrictions
   ≤ Z.min (15 * len ingredients) 100)%Z.
Proof.
  rewrite calculate_nutrition_score_eq. unfold len.
  pose proof (filter_length_le
                (λ ingredient,
                   existsb (λ healthy, str_in healthy (str_lower ingredient))
                           healthy_ingredients) ingredients).
  lia.
Qed.

(** X7: adding an ingredient anywhere in the list never lowers the nutrition
    score. *)
Theorem calculate_nutrition_score_grows
    (before after : list string) (ingredient dietary_restrictions : string) :
  (calculate_nutrition_score (before ++ after) dietary_restrictions
   ≤ calculate_nutrition_score (before ++ ingredient :: after)
       dietary_restrictions)%Z.
Proof.
  rewrite !calculate_nutrition_score_eq. unfold len.
  rewrite !List.filter_app, !List.length_app. cbn [List.filter length].
  destruct (existsb _ healthy_ingredients); cbn [length]; lia.
Qed.

(** ** Rounding is monotone *)

Lemma round_half_even_Qeq (x y : Q) :
  (x == y)%Q → round_half_even x = round_half_even y.
Proof.
  intros Hxy. unfold round_half_even.
  assert (Hf : Qfloor x = Qfloor y) by (by apply Qfloor_comp).
  rewrite Hf.
  assert (Hc : (x - inject_Z (Qfloor y) ?= 1 # 2)%Q
               = (y - inject_Z (Qfloor y) ?= 1 # 2)%Q).
  { apply Qcompare_comp; [by rewrite Hxy | reflexivity]. }
  by rewrite Hc.
Qed.

Lemma round_half_even_mono (x y : Q) :
  (x <= y)%Q → (round_half_even x ≤ round_half_even y)%Z.
Proof.
  intros Hxy.
  destruct (Z_le_gt_dec (round_half_even x) (round_half_even y)) as [|Hgt];
    [done|exfalso].
  pose proof (round_half_even_nearest x) as [_ Hx].
  pose proof (round_half_even_nearest y) as [Hy _].
  assert (Hz : (inject_Z (round_half_even y) + 1
                <= inject_Z (round_half_even x))%Q).
  { change 1%Q with (inject_Z 1). rewrite <- inject_Z_plus.
    rewrite <- Zle_Qle. lia. }
  assert (Heq : (x == y)%Q) by lra.
  apply round_half_even_Qeq in Heq. lia.
Qed.

(** ** Wellness tracking: thresholds of the tips, monotonicity *)

Lemma sub_score_mono (x y : Q) (d : Z) :
  (0 < d)%Z → (x <= y)%Q →
  (py_min (x / inject_Z d * 100) 100 <= py_min (y / inject_Z d * 100) 100)%Q.
Proof.
  intros Hd Hxy.
  assert (Hd' : (0 < inject_Z d)%Q).
  { change 0%Q with (inject_Z 0). by rewrite <- Zlt_Qlt. }
  assert (x / inject_Z d <= y / inject_Z d)%Q.
  { apply Qle_shift_div_l; [done|].
    unfold Qdiv. rewrite <- Qmult_assoc, (Qmult_comm (/ _)), Qmult_inv_r; lra. }
  py_minmax_cases; lra.
Qed.

(** X8: a reading that is at least as good in sleep, exercise and water never
    gives a lower overall wellness score. *)
Theorem track_wellness_monotone
    (sleep1 exercise1 water1 sleep2 exercise2 water2 : Q) :
  (sleep1 <= sleep2)%Q → (exercise1 <= exercise2)%Q → (water1 <= water2)%Q →
  ∃ r1 r2 : wellness_response Q,
    track_wellness sleep1 exercise1 water1 = Some r1 ∧
    track_wellness sleep2 exercise2 water2 = Some r2 ∧
    (wellness_score r1 ≤ wellness_score r2)%Z.
Proof.
  intros Hs He Hw.
  edestruct (track_wellness_run sleep1 exercise1 water1)
    as (r1 & Hr1 & Ho1 & _); [reflexivity|].
  edestruct (track_wellness_run sleep2 exercise2 water2)
    as (r2 & Hr2 & Ho2 & _); [reflexivity|].
  exists r1, r2. split_and!; [done..|].
  rewrite Ho1, Ho2. apply round_half_even_mono.
  pose proof (sub_score_mono _ _ 8 eq_refl Hs).
  pose proof (sub_score_mono _ _ 30 eq_refl He).
  pose proof (sub_score_mono _ _ 8 eq_refl Hw).
  cbn [add div of_int Q_PyNum mul] in *.
  apply Qle_shift_div_l; [done|].
  unfold Qdiv at 1. rewrite <- Qmult_assoc, (Qmult_comm (/ _)), Qmult_inv_r; [|done].
  change (inject_Z 100) with 100%Q. lra.
Qed.

Lemma track_wellness_monotone_example :
  ∃ r1 r2 : wellness_response Q,
    track_wellness 6%Q 10%Q 4%Q = Some r1 ∧
    track_wellness 7%Q 25%Q 4%Q = Some r2 ∧
    (wellness_score r1 ≤ wellness_score r2)%Z.
Proof. apply track_wellness_monotone; lra. Defined.

Lemma tips_in_recommendations (bs be bw : bool) (overall : Z) :
  let result :=
    (if bs then [sleep_tip] else [])
    ++ (if be then [exercise_tip] else [])
    ++ (if bw then [water_tip] else [])
    ++ [closing_remark overall] in
  (sleep_tip ∈ result ↔ bs = true) ∧
  (exercise_tip ∈ result ↔ be = true) ∧
  (water_tip ∈ result ↔ bw = true) ∧
  length result = (Nat.b2n bs + Nat.b2n be + Nat.b2n bw + 1)%nat.
Proof.
  intros result; subst result. unfold closing_remark.
  destruct bs, be, bw; repeat case_decide;
    split_and!; try reflexivity;
    (split; [intros Hin; apply list_elem_of_In in Hin; cbn in Hin;
             try reflexivity; exfalso;
             repeat (destruct Hin as [Hin|Hin]; [discriminate Hin|]);
             exact Hin
            | intros Hb; try discriminate Hb;
              apply list_elem_of_In; cbn; tauto]).
Qed.

Lemma track_wellness_Q (sleep_hours exercise_minutes water_glasses : Q) :
  let sleep_score := py_min (sleep_hours / of_int 8 * of_int 100)%py (of_int 100) in
  let exercise_score :=
    py_min (exercise_minutes / of_int 30 * of_int 100)%py (of_int 100) in
  let water_score := py_min (water_glasses / of_int 8 * of_int 100)%py (of_int 100) in
  ∃ r : wellness_response Q,
    track_wellness sleep_hours exercise_minutes water_glasses = Some r ∧
    wellness_score r
    = round_half_even ((sleep_score + exercise_score + water_score) / 3)%Q ∧
    recommendations r
    = (if (sleep_score <? of_int 70)%py then [sleep_tip] else [])
      ++ (if (exercise_score <? of_int 70)%py then [exercise_tip] else [])
      ++ (if (water_score <? of_int 70)%py then [water_tip] else [])
      ++ [closing_remark (wellness_score r)].
Proof.
  intros ss es ws.
  edestruct (track_wellness_run sleep_hours exercise_minutes water_glasses)
    as (r & Hr & Ho & Hsub & Hrec); [reflexivity|].
  exists r. split_and!; [exact Hr | exact Ho |].
  unfold sub_scores in Hsub.
  destruct (breakdown r !! "sleep_score") as [ss'|] eqn:Hs; [|done].
  destruct (breakdown r !! "exercise_score") as [es'|] eqn:He; [|done].
  destruct (breakdown r !! "water_score") as [ws'|] eqn:Hw; [|done].
  cbn [mbind option_bind] in Hsub. injection Hsub as -> -> ->.
  rewrite (generate_wellness_recommendations_run _ _ _ _ _ Hs He Hw) in Hrec.
  injection Hrec as <-. by rewrite Ho.
Qed.

Lemma track_wellness_inv {num : Type} `{!PyNum num}
    (sleep_hours exercise_minutes water_glasses : num)
    (r : wellness_response num) :
  let sleep_score :=
    py_min ((sleep_hours / of_int 8) * of_int 100)%py (of_int 100) in
  let exercise_score :=
    py_min ((exercise_minutes / of_int 30) * of_int 100)%py (of_int 100) in
  let water_score :=
    py_min ((water_glasses / of_int 8) * of_int 100)%py (of_int 100) in
  track_wellness sleep_hours exercise_minutes water_glasses = Some r →
  sub_scores r = Some (sleep_score, exercise_score, water_score) ∧
  recommendations r
  = (if (sleep_score <? of_int 70)%py then [sleep_tip] else [])
    ++ (if (exercise_score <? of_int 70)%py then [exercise_tip] else [])
    ++ (if (water_score <? of_int 70)%py then [water_tip] else [])
    ++ [closing_remark (wellness_score r)].
Proof.
  intros ss es ws Hr.
  destruct (py_round ((ss + es + ws) / of_int 3)%py) as [overall|] eqn:Ho.
  - destruct (track_wellness_run sleep_hours exercise_minutes water_glasses
                overall Ho) as (r' & Hr' & Hscore & Hsub & Hrec).
    rewrite Hr in Hr'. injection Hr' as <-. split; [exact Hsub|].
    unfold sub_scores in Hsub.
    destruct (breakdown r !! "sleep_score") as [ss'|] eqn:Hs; [|done].
    destruct (breakdown r !! "exercise_score") as [es'|] eqn:He; [|done].
    destruct (breakdown r !! "water_score") as [ws'|] eqn:Hw; [|done].
    cbn [mbind option_bind] in Hsub. injection Hsub as -> -> ->.
    rewrite (generate_wellness_recommendations_run _ _ _ _ _ Hs He Hw) in Hrec.
    injection Hrec as <-. by rewrite Hscore.
  - by rewrite (track_wellness_fails _ _ _ Ho) in Hr.
Qed.

Lemma forallb_range (P : Z → bool) (bound : Z) :
  forallb P (seqZ 0 bound) = true → ∀ n : Z, (0 ≤ n < bound)%Z → P n = true.
Proof.
  intros Hall n Hn. rewrite forallb_forall in Hall.
  apply Hall, list_elem_of_In, elem_of_seqZ. lia.
Qed.

(** The sub-scores at the readings a form sends with two decimals, or
    minutes with one, computed in binary64 for each of them. *)
Lemma eighth_score_below_70 (hundredths : Z) :
  (0 ≤ hundredths ≤ 2400)%Z →
  (py_min (lit (hundredths # 100) / of_int 8 * of_int 100) (of_int 100)
   <? of_int 70)%py
  = (hundredths <? 560)%Z :> bool.
Proof.
  intros Hn.
  apply Bool.eqb_prop.
  apply (forallb_range
           (λ n, Bool.eqb
                   (py_min (lit (n # 100) / of_int 8 * of_int 100)
                           (of_int 100) <? of_int 70)%py
                   (n <? 560)%Z) 2401); [by vm_compute | lia].
Qed.

Lemma thirtieth_score_below_70 (tenths : Z) :
  (0 ≤ tenths ≤ 14400)%Z →
  (py_min (lit (tenths # 10) / of_int 30 * of_int 100) (of_int 100)
   <? of_int 70)%py
  = (tenths <? 210)%Z :> bool.
Proof.
  intros Hn.
  apply Bool.eqb_prop.
  apply (forallb_range
           (λ n, Bool.eqb
                   (py_min (lit (n # 10) / of_int 30 * of_int 100)
                           (of_int 100) <? of_int 70)%py
                   (n <? 210)%Z) 14401); [by vm_compute | lia].
Qed.

(** X9: in every answer of the wellness tracker a tip is present exactly
    when the sub-score shown beside it in the breakdown is below 70, for
    every kind of number.  In the binary64 arithmetic of the handler, for
    sleep and water readings of 0 to 24 given with two decimals and
    exercise readings of 0 to 1440 minutes given with one, this is: the
    sleep tip exactly below 5.60 hours, the exercise tip exactly below
    21.0 minutes, the hydration tip exactly below 5.60 glasses; at
    (5.6, 21, 5.6) the answer holds the closing remark alone. *)
Theorem track_wellness_tip_thresholds :
  (∀ (num : Type) (H : PyNum num)
     (sleep_hours exercise_minutes water_glasses : num)
     (r : wellness_response num),
      track_wellness sleep_hours exercise_minutes water_glasses = Some r →
      ∃ sleep_score exercise_score water_score : num,
        sub_scores r = Some (sleep_score, exercise_score, water_score) ∧
        (sleep_tip ∈ recommendations r
         ↔ (sleep_score <? of_int 70)%py = true) ∧
        (exercise_tip ∈ recommendations r
         ↔ (exercise_score <? of_int 70)%py = true) ∧
        (water_tip ∈ recommendations r
         ↔ (water_score <? of_int 70)%py = true)) ∧
  (∀ (hundredths : Z) (exercise_minutes water_glasses : float)
     (r : wellness_response float),
      (0 ≤ hundredths ≤ 2400)%Z →
      track_wellness (lit (hundredths # 100)) exercise_minutes water_glasses
      = Some r →
      (sleep_tip ∈ recommendations r ↔ (hundredths < 560)%Z)) ∧
  (∀ (tenths : Z) (sleep_hours water_glasses : float)
     (r : wellness_response float),
      (0 ≤ tenths ≤ 14400)%Z →
      track_wellness sleep_hours (lit (tenths # 10)) water_glasses = Some r →
      (exercise_tip ∈ recommendations r ↔ (tenths < 210)%Z)) ∧
  (∀ (hundredths : Z) (sleep_hours exercise_minutes : float)
     (r : wellness_response float),
      (0 ≤ hundredths ≤ 2400)%Z →
      track_wellness sleep_hours exercise_minutes (lit (hundredths # 100))
      = Some r →
      (water_tip ∈ recommendations r ↔ (hundredths < 560)%Z)) ∧
  (∃ r : wellness_response float,
      track_wellness (lit 5.6) (of_int 21) (lit 5.6) = Some r ∧
      sub_scores r = Some (70, 70, 70)%float ∧
      wellness_score r = 70%Z ∧
      recommendations r
      = ["You're on the right track - small improvements can make a big difference"]).
Proof.
  split_and!.
  - intros num H s e w r Hr.
    destruct (track_wellness_inv s e w r Hr) as [Hsub Hrec].
    eexists _, _, _. split; [exact Hsub|]. rewrite Hrec.
    match goal with
    | |- context [(if ?a then [sleep_tip] else []) ++
                  (if ?b then _ else _) ++ (if ?c then _ else _)
                  ++ [closing_remark ?o]] =>
        destruct (tips_in_recommendations a b c o) as (H1 & H2 & H3 & _)
    end.
    split_and!; [exact H1 | exact H2 | exact H3].
  - intros n e w r Hn Hr.
    destruct (track_wellness_inv _ e w r Hr) as [_ Hrec]. rewrite Hrec.
    match goal with
    | |- context [(if ?a then [sleep_tip] else []) ++
                  (if ?b then _ else _) ++ (if ?c then _ else _)
                  ++ [closing_remark ?o]] =>
        destruct (tips_in_recommendations a b c o) as (H1 & _)
    end.
    rewrite H1, (eighth_score_below_70 n Hn). apply Z.ltb_lt.
  - intros n s w r Hn Hr.
    destruct (track_wellness_inv s _ w r Hr) as [_ Hrec]. rewrite Hrec.
    match goal with
    | |- context [(if ?a then [sleep_tip] else []) ++
                  (if ?b then _ else _) ++ (if ?c then _ else _)
                  ++ [closing_remark ?o]] =>
        destruct (tips_in_recommendations a b c o) as (_ & H2 & _)
    end.
    rewrite H2, (thirtieth_score_below_70 n Hn). apply Z.ltb_lt.
  - intros n s e r Hn Hr.
    destruct (track_wellness_inv s e _ r Hr) as [_ Hrec]. rewrite Hrec.
    match goal with
    | |- context [(if ?a then [sleep_tip] else []) ++
                  (if ?b then _ else _) ++ (if ?c then _ else _)
                  ++ [closing_remark ?o]] =>
        destruct (tips_in_recommendations a b c o) as (_ & _ & H3 & _)
    end.
    rewrite H3, (eighth_score_below_70 n Hn). apply Z.ltb_lt.
  - destruct (track_wellness_run (num:=float)
                (lit 5.6) (of_int 21) (lit 5.6) 70)
      as (r & Hr & Ho & Hsub & _); [by vm_compute|].
    exists r. destruct (track_wellness_inv _ _ _ r Hr) as [_ Hrec].
    split_and!; [exact Hr | by rewrite Hsub; vm_compute | exact Ho |].
    rewrite Hrec, Ho. by vm_compute.
Qed.

Lemma track_wellness_tip_thresholds_example :
  ∃ r : wellness_response float,
    track_wellness (lit 5.59) (of_int 30) (of_int 8) = Some r ∧
    sleep_tip ∈ recommendations r.
Proof.
  destruct (track_wellness_run (num:=float)
              (lit 5.59) (of_int 30) (of_int 8) 90)
    as (r & Hr & _); [by vm_compute|].
  exists r. split; [exact Hr|].
  destruct track_wellness_tip_thresholds as (_ & Hsleep & _).
  apply (Hsleep 559%Z (of_int 30) (of_int 8) r); [lia | exact Hr | lia].
Defined.

(** X10: a response without any tip has an overall score of at least 70, so it
    never closes on the remark for scores below 60; a response with all
    three tips has an overall score of at most 70, so it never closes on
    the remark for scores from 80 up. *)
Theorem track_wellness_closing_remark
    (sleep_hours exercise_minutes water_glasses : Q) :
  ∃ r : wellness_response Q,
    track_wellness sleep_hours exercise_minutes water_glasses = Some r ∧
    (length (recommendations r) = 1%nat →
     (70 ≤ wellness_score r)%Z ∧
     "Focus on gradual improvements in sleep, exercise, and hydration"
       ∉ recommendations r) ∧
    (length (recommendations r) = 4%nat →
     (wellness_score r ≤ 70)%Z ∧
     "Great job maintaining excellent wellness habits!" ∉ recommendations r).
Proof.
  destruct (track_wellness_Q sleep_hours exercise_minutes water_glasses)
    as (r & Hr & Ho & Hrec).
  exists r. split; [exact Hr|]. rewrite Hrec.
  set (ss := py_min (sleep_hours / of_int 8 * of_int 100)%py (of_int 100)) in *.
  set (es := py_min (exercise_minutes / of_int 30 * of_int 100)%py (of_int 100)) in *.
  set (ws := py_min (water_glasses / of_int 8 * of_int 100)%py (of_int 100)) in *.
  destruct (ss <? of_int 70)%py eqn:Hs, (es <? of_int 70)%py eqn:He,
    (ws <? of_int 70)%py eqn:Hw; cbn [app length];
    (split; intros Hlen; [try discriminate Hlen|try discriminate Hlen]).
  - apply lt_Q_true in Hs, He, Hw. change (of_int 70) with 70%Q in *.
    assert (Hle : (wellness_score r ≤ round_half_even (inject_Z 70))%Z).
    { rewrite Ho. apply round_half_even_mono.
      apply Qle_shift_div_r; [done|]. unfold inject_Z. lra. }
    rewrite round_half_even_inject in Hle. split; [exact Hle|].
    unfold closing_remark. repeat case_decide; try lia;
      intros Hin; apply list_elem_of_In in Hin; cbn in Hin;
      repeat (destruct Hin as [Hin|Hin]; [discriminate Hin|]); exact Hin.
  - apply lt_Q_false in Hs, He, Hw. change (of_int 70) with 70%Q in *.
    assert (Hle : (round_half_even (inject_Z 70) ≤ wellness_score r)%Z).
    { rewrite Ho. apply round_half_even_mono.
      apply Qle_shift_div_l; [done|]. unfold inject_Z. lra. }
    rewrite round_half_even_inject in Hle. split; [exact Hle|].
    unfold closing_remark. repeat case_decide; try lia;
      intros Hin; apply list_elem_of_In in Hin; cbn in Hin;
      repeat (destruct Hin as [Hin|Hin]; [discriminate Hin|]); exact Hin.
Qed.

(** ** Wellness recommendations: the keys that are read *)

(** X11: the recommendations are produced exactly when the three sub-scores
    are present in the data; a missing one makes the call fail, and no
    other entry of the data is looked at. *)
Theorem generate_wellness_recommendations_keys {num : Type} `{!PyNum num}
    (wellness_score : Z) (wellness_data : gmap string num) :
  (is_Some (generate_wellness_recommendations wellness_score wellness_data)
   ↔ is_Some (wellness_data !! "sleep_score")
     ∧ is_Some (wellness_data !! "exercise_score")
     ∧ is_Some (wellness_data !! "water_score")) ∧
  (∀ other : gmap string num,
      other !! "sleep_score" = wellness_data !! "sleep_score" →
      other !! "exercise_score" = wellness_data !! "exercise_score" →
      other !! "water_score" = wellness_data !! "water_score" →
      generate_wellness_recommendations wellness_score other
      = generate_wellness_recommendations wellness_score wellness_data).
Proof.
  split.
  - unfold generate_wellness_recommendations.
    destruct (wellness_data !! "sleep_score") as [s|];
      destruct (wellness_data !! "exercise_score") as [e|];
      destruct (wellness_data !! "water_score") as [w|];
      cbn [mbind option_bind]; split;
      try (intros (? & ? & ?)); try (intros ?); split_and?;
      try done; try (by eapply is_Some_None).
  - intros other Hs He Hw. unfold generate_wellness_recommendations.
    by rewrite Hs, He, Hw.
Qed.

(** ** The level classifiers are monotone *)

(** X12: more recorded activities never give a lower education level. *)
Theorem determine_education_level_monotone {num : Type}
    (count1 count2 : Z) (avg1 avg2 : num) :
  (0 ≤ count1 ≤ count2)%Z →
  (education_rank (determine_education_level count1 avg1)
   ≤ education_rank (determine_education_level count2 avg2))%Z.
Proof.
  intros H. unfold determine_education_level.
  repeat match goal with
    | |- context [(?a =? ?b)%Z] => destruct (Z.eqb_spec a b)
    | |- context [(?a <? ?b)%Z] => destruct (Z.ltb_spec a b)
    end; try lia; by vm_compute.
Qed.

Lemma determine_education_level_monotone_example :
  (education_rank (determine_education_level 3 40%Q)
   ≤ education_rank (determine_education_level 12 10%Q))%Z.
Proof. apply determine_education_level_monotone. lia. Defined.

(** X13: a higher average wellness score never gives a lower health status. *)
Theorem determine_health_status_monotone (avg1 avg2 : Q) :
  (avg1 <= avg2)%Q →
  (health_rank (determine_health_status avg1)
   ≤ health_rank (determine_health_status avg2))%Z.
Proof.
  intros H. unfold determine_health_status.
  repeat match goal with
    | |- context [(?a >=? ?b)%py] =>
        let E := fresh "E" in
        destruct (a >=? b)%py eqn:E;
        [apply ge_Q_true in E | apply ge_Q_false in E];
        cbn [of_int Q_PyNum] in E; unfold inject_Z in E
    end; first [by vm_compute | exfalso; lra].
Qed.

Lemma determine_health_status_monotone_example :
  (health_rank (determine_health_status 59.5%Q)
   ≤ health_rank (determine_health_status 60%Q))%Z.
Proof. apply determine_health_status_monotone. lra. Defined.

(** ** Splitting and stripping *)

Lemma str_split_nonempty (sep : ascii) (s : string) : str_split sep s ≠ [].
Proof.
  destruct s as [|c s]; cbn; [done|].
  destruct (Ascii.eqb c sep); [done|]. by destruct (str_split sep s).
Qed.

Lemma str_split_join (sep : ascii) (s : string) :
  str_join (String sep EmptyString) (str_split sep s) = s.
Proof.
  induction s as [|c s IH]; [done|].
  cbn [str_split]. destruct (Ascii.eqb_spec c sep) as [->|Hne].
  - pose proof (str_split_nonempty sep s) as Hne.
    destruct (str_split sep s) as [|piece pieces]; [done|].
    cbn [str_join] in *. by rewrite IH.
  - destruct (str_split sep s) as [|piece pieces] eqn:Hs.
    + by destruct (str_split_nonempty sep s).
    + cbn [str_join] in *. destruct pieces as [|piece' pieces].
      * by rewrite IH.
      * by rewrite append_cons, IH.
Qed.

Lemma str_split_length (sep : ascii) (s : string) :
  len (str_split sep s) = (1 + occurrences sep s)%Z.
Proof.
  unfold occurrences, len.
  induction s as [|c s IH]; [done|].
  cbn [str_split list_ascii_of_string List.filter].
  rewrite (Ascii.eqb_sym sep c).
  destruct (Ascii.eqb c sep).
  - cbn [length]. lia.
  - destruct (str_split sep s) as [|piece pieces] eqn:Hs.
    + by destruct (str_split_nonempty sep s).
    + cbn [length] in *. lia.
Qed.

Lemma str_split_no_sep (sep : ascii) (s piece : string) :
  piece ∈ str_split sep s → sep ∉ list_ascii_of_string piece.
Proof.
  revert piece. induction s as [|c s IH]; intros piece Hin.
  - apply list_elem_of_singleton in Hin as ->. cbn. apply not_elem_of_nil.
  - cbn [str_split] in Hin. destruct (Ascii.eqb_spec c sep) as [->|Hne].
    + apply elem_of_cons in Hin as [->|Hin]; [apply not_elem_of_nil|by apply IH].
    + destruct (str_split sep s) as [|piece' pieces] eqn:Hs.
      { by destruct (str_split_nonempty sep s). }
      apply elem_of_cons in Hin as [->|Hin].
      * cbn. apply not_elem_of_cons. split; [done|]. apply IH. by left.
      * apply IH. by right.
Qed.

Lemma str_lstrip_first (s : string) (c : ascii) (rest : string) :
  str_lstrip s = String c rest → is_space c = false.
Proof.
  induction s as [|a s IH]; [done|]. cbn [str_lstrip].
  destruct (is_space a) eqn:Ha; [done|]. by intros [= <- _].
Qed.

Lemma str_rstrip_cons (c : ascii) (s : string) :
  is_space c = false → str_rstrip (String c s) = String c (str_rstrip s).
Proof.
  intros Hc. cbn [str_rstrip]. destruct (str_rstrip s); [by rewrite Hc|done].
Qed.

Lemma str_rstrip_last (s : string) (c : ascii) (rest : string) :
  str_rstrip s = rest +:+ String c EmptyString → is_space c = false.
Proof.
  revert rest. induction s as [|a s IH]; intros rest.
  - by destruct rest.
  - cbn [str_rstrip]. destruct (str_rstrip s) as [|b kept].
    + destruct (is_space a) eqn:Ha; [by destruct rest|].
      destruct rest as [|a' [|? ?]]; [by intros [= <-] | done..].
    + destruct rest as [|a' rest]; [done|].
      rewrite append_cons. intros [= _ Hk]. by apply (IH rest).
Qed.

Lemma str_lstrip_chars (s : string) (c : ascii) :
  c ∈ list_ascii_of_string (str_lstrip s) → c ∈ list_ascii_of_string s.
Proof.
  induction s as [|a s IH]; [done|]. cbn [str_lstrip].
  destruct (is_space a); [|done]. intros Hin. right. by apply IH.
Qed.

Lemma str_rstrip_chars (s : string) (c : ascii) :
  c ∈ list_ascii_of_string (str_rstrip s) → c ∈ list_ascii_of_string s.
Proof.
  induction s as [|a s IH]; [done|]. cbn [str_rstrip].
  destruct (str_rstrip s) as [|b kept].
  - destruct (is_space a); cbn; [by intros ?%elem_of_nil|].
    intros [->|?%elem_of_nil]%elem_of_cons; [by left|done].
  - cbn [list_ascii_of_string] in *.
    intros [->|Hin]%elem_of_cons; [by left|]. right. by apply IH.
Qed.

Lemma str_strip_trimmed (s : string) : trimmed (str_strip s).
Proof.
  intros c rest. unfold str_strip. split.
  - destruct (str_lstrip s) as [|a s'] eqn:Hl; [done|].
    pose proof (str_lstrip_first _ _ _ Hl) as Ha.
    rewrite (str_rstrip_cons _ _ Ha). by intros [= <- _].
  - apply str_rstrip_last.
Qed.

Lemma str_strip_chars (s : string) (c : ascii) :
  c ∈ list_ascii_of_string (str_strip s) → c ∈ list_ascii_of_string s.
Proof. intros H. by apply str_lstrip_chars, str_rstrip_chars. Qed.

(** The items read from a comma-separated field: one more than there are
    commas, none of them containing a comma or starting or ending with
    white space. *)
Lemma split_strip_items (text : string) :
  let items := map str_strip (str_split "," text) in
  len items = (1 + occurrences "," text)%Z ∧
  ∀ item : string,
    item ∈ items →
    trimmed item ∧ ("," : ascii) ∉ list_ascii_of_string item.
Proof.
  intros items; subst items. split.
  - unfold len. rewrite length_map. apply str_split_length.
  - intros item (piece & -> & Hin)%list_elem_of_fmap. split.
    + apply str_strip_trimmed.
    + intros Hc%str_strip_chars. by apply (str_split_no_sep _ _ _ Hin).
Qed.

(** ** The request handlers *)


(** X15: an accepted food-waste request counts one item more than the text has
    commas, empty items included, and scores 15 per item up to 100: at
    least 15, and 100 exactly from six commas on.  The suggestions quote
    the text as it was sent, and the answer carries the id of the stored
    row. *)
Theorem reduce_food_waste_accepted
    (expiring_items : string) (reduction_id : Z) :
  expiring_items ≠ EmptyString →
  ∃ body : FoodWaste.response,
    reduce_food_waste (Some expiring_items) (Some reduction_id)
    = Success body ∧
    FoodWaste.reduction_id body = reduction_id ∧
    FoodWaste.items_saved body = (1 + occurrences "," expiring_items)%Z ∧
    FoodWaste.impact_score body
    = Z.min 100 (15 * FoodWaste.items_saved body) ∧
    (15 ≤ FoodWaste.impact_score body ≤ 100)%Z ∧
    (FoodWaste.impact_score body = 100%Z
     ↔ (6 ≤ occurrences "," expiring_items)%Z) ∧
    Substring expiring_items (FoodWaste.suggestions body).
Proof.
  intros Hne. destruct expiring_items as [|c text]; [done|].
  eexists. split; [reflexivity|]. split; [reflexivity|].
  cbn [FoodWaste.items_saved FoodWaste.impact_score FoodWaste.suggestions].
  destruct (split_strip_items (String c text)) as [Hlen _].
  cbv zeta in Hlen. rewrite Hlen. unfold calculate_waste_impact_score.
  rewrite Hlen.
  assert (0 ≤ occurrences "," (String c text))%Z.
  { unfold occurrences, len. lia. }
  split_and!; try lia.
  eexists "Food waste reduction ideas for ", _. reflexivity.
Qed.

Lemma reduce_food_waste_accepted_example :
  ∃ body : FoodWaste.response,
    reduce_food_waste (Some "milk, bread,,") (Some 12%Z) = Success body ∧
    FoodWaste.items_saved body = 4%Z ∧ FoodWaste.impact_score body = 60%Z.
Proof.
  destruct (reduce_food_waste_accepted "milk, bread,," 12)
    as (body & Hrun & _ & Hn & Hs & _); [done|].
  exists body. split; [exact Hrun|]. rewrite Hs, Hn. by vm_compute.
Defined.

(** X16: an accepted meal-plan request lists one ingredient more than the text
    has commas, each without a comma and without white space at either
    end; its nutrition score is that of this list and lies between 10
    and 100; the dietary restriction is echoed, "none" when absent, and
    does not change the score; the answer carries the id of the stored
    row. *)
Theorem generate_meal_plan_accepted
    (ingredients : string) (dietary_restrictions : option string)
    (plan_id : Z) :
  ingredients ≠ EmptyString →
  ∃ body : MealPlan.response,
    generate_meal_plan (Some ingredients) dietary_restrictions (Some plan_id)
    = Success body ∧
    MealPlan.plan_id body = plan_id ∧
    len (MealPlan.ingredients_used body) = (1 + occurrences "," ingredients)%Z ∧
    (∀ item : string,
        item ∈ MealPlan.ingredients_used body →
        trimmed item ∧ ("," : ascii) ∉ list_ascii_of_string item) ∧
    MealPlan.nutrition_score body
    = calculate_nutrition_score (MealPlan.ingredients_used body) "none" ∧
    (10 ≤ MealPlan.nutrition_score body ≤ 100)%Z ∧
    MealPlan.dietary_restrictions body = default "none" dietary_restrictions.
Proof.
  intros Hne. destruct ingredients as [|c text]; [done|].
  eexists. split; [reflexivity|]. split; [reflexivity|].
  cbn [MealPlan.ingredients_used MealPlan.nutrition_score
       MealPlan.dietary_restrictions].
  destruct (split_strip_items (String c text)) as [Hlen Hitems].
  cbv zeta in Hlen, Hitems.
  split_and!; [exact Hlen | exact Hitems | done | | | done].
  - rewrite calculate_nutrition_score_eq, Hlen.
    assert (0 ≤ occurrences "," (String c text))%Z.
    { unfold occurrences, len. lia. }
    unfold len at 1. lia.
  - rewrite calculate_nutrition_score_eq. lia.
Qed.

Lemma generate_meal_plan_accepted_example :
  ∃ body : MealPlan.response,
    generate_meal_plan (Some " Fresh Vegetables , rice ") None (Some 7%Z)
    = Success body ∧
    MealPlan.ingredients_used body = ["Fresh Vegetables"; "rice"] ∧
    MealPlan.nutrition_score body = 25%Z.
Proof.
  destruct (generate_meal_plan_accepted " Fresh Vegetables , rice " None 7)
    as (body & Hrun & _); [done|].
  exists body. split; [exact Hrun|].
  injection Hrun as <-. by vm_compute.
Defined.

(** X17: an accepted mood text is answered in one of three shapes: POSITIVE
    with three recommendations and mood score 89, NEUTRAL with four and
    62, NEGATIVE with four and 39; in each the advice fetched from outside
    comes last, after the recommendations.  Exact and binary64 numbers
    give the same label and the same list, and the answer carries the id
    of the stored row. *)
Theorem analyze_mental_health_accepted
    (mood_text advice : string) (assessment_id : Z) :
  mood_text ≠ EmptyString →
  ∃ (body : MentalHealth.response Q) (body64 : MentalHealth.response float),
    analyze_mental_health (Some mood_text) advice (Some assessment_id)
    = Success body ∧
    analyze_mental_health (Some mood_text) advice (Some assessment_id)
    = Success body64 ∧
    MentalHealth.assessment_id body = assessment_id ∧
    MentalHealth.assessment_id body64 = assessment_id ∧
    MentalHealth.sentiment body64 = MentalHealth.sentiment body ∧
    MentalHealth.recommendations body64 = MentalHealth.recommendations body ∧
    last (MentalHealth.recommendations body) = Some advice ∧
    ((MentalHealth.sentiment body = "POSITIVE" ∧
      length (MentalHealth.recommendations body) = 4%nat ∧
      (MentalHealth.mood_score body == 89)%Q ∧
      MentalHealth.mood_score body64 = 89%float) ∨
     (MentalHealth.sentiment body = "NEUTRAL" ∧
      length (MentalHealth.recommendations body) = 5%nat ∧
      (MentalHealth.mood_score body == 62)%Q ∧
      MentalHealth.mood_score body64 = 62%float) ∨
     (MentalHealth.sentiment body = "NEGATIVE" ∧
      length (MentalHealth.recommendations body) = 5%nat ∧
      (MentalHealth.mood_score body == 39)%Q ∧
      MentalHealth.mood_score body64 = 39%float)).
Proof.
  intros Hne. destruct mood_text as [|c text]; [done|].
  destruct (analyze_sentiment_cases (String c text))
    as (label & q & Hin & Hrun).
  unfold analyze_mental_health. rewrite !Hrun.
  apply list_elem_of_In in Hin.
  destruct Hin as [Heq|[Heq|[Heq|[]]]]; injection Heq as <- <-.
  - eexists _, _.
    split_and!; [reflexivity | reflexivity | done | done | done | done | ..].
    + cbn [MentalHealth.recommendations]. apply last_snoc.
    + left. split_and!; [done | done | by vm_compute | by vm_compute].
  - eexists _, _.
    split_and!; [reflexivity | reflexivity | done | done | done | done | ..].
    + cbn [MentalHealth.recommendations]. apply last_snoc.
    + right; right.
      split_and!; [done | done | by vm_compute | by vm_compute].
  - eexists _, _.
    split_and!; [reflexivity | reflexivity | done | done | done | done | ..].
    + cbn [MentalHealth.recommendations]. apply last_snoc.
    + right; left.
      split_and!; [done | done | by vm_compute | by vm_compute].
Qed.

Lemma analyze_mental_health_accepted_example :
  ∃ body : MentalHealth.response Q,
    analyze_mental_health (Some "I feel great today") "Smile." (Some 3%Z)
    = Success body ∧
    MentalHealth.sentiment body = "POSITIVE" ∧
    last (MentalHealth.recommendations body) = Some "Smile.".
Proof.
  destruct (analyze_mental_health_accepted "I feel great today" "Smile." 3)
    as (body & _ & Hrun & _ & _ & _ & _ & _ & Hlast & _); [done|].
  exists body. split; [exact Hrun|]. split; [|exact Hlast].
  injection Hrun as <-. by vm_compute.
Defined.

(** ** The token check *)

Lemma str_split_head (sep : ascii) (s : string) :
  ∃ (first post : string) (pieces : list string),
    str_split sep s = first :: pieces ∧
    (sep ∉ list_ascii_of_string first) ∧
    s = first +:+ post ∧
    (post = EmptyString ∨ ∃ after : string, post = String sep after).
Proof.
  induction s as [|c s (first & post & pieces & Hs & Hno & Heq & Hpost)].
  - exists EmptyString, EmptyString, []. split_and!; try done; [|by left].
    apply not_elem_of_nil.
  - cbn [str_split]. destruct (Ascii.eqb_spec c sep) as [->|Hne].
    + exists EmptyString, (String sep s), (str_split sep s).
      split_and!; try done; [apply not_elem_of_nil | right; by eexists].
    + rewrite Hs. exists (String c first), post, pieces.
      split_and!; try done.
      * cbn. by apply not_elem_of_cons.
      * by rewrite append_cons, <- Heq.
Qed.

Lemma bearer_token_total (header : string) :
  ∃ token : string, bearer_token header = Some token.
Proof.
  unfold bearer_token. destruct (str_prefix "Bearer " header) eqn:Hp.
  - apply str_prefix_true_iff in Hp as [rest ->].
    destruct (str_split_head " " rest) as (first & _ & pieces & Hs & _).
    exists first. rewrite !append_cons. change (EmptyString +:+ rest) with rest.
    cbn. by rewrite Hs.
  - by exists header.
Qed.

(** X18: the token taken from the Authorization header: the subscript never
    fails; a header that starts with "Bearer " gives what follows it up to
    the next space, so a token without spaces is recovered whole; any
    other header is taken as it is. *)
Theorem bearer_token_spec (header : string) :
  ∃ token : string,
    bearer_token header = Some token ∧
    (str_prefix "Bearer " header = false → token = header) ∧
    (∀ rest : string,
        header = "Bearer " +:+ rest →
        ((" " : ascii) ∉ list_ascii_of_string token) ∧
        ∃ post : string,
          rest = token +:+ post ∧
          (post = EmptyString ∨ ∃ after : string, post = " " +:+ after)).
Proof.
  unfold bearer_token. destruct (str_prefix "Bearer " header) eqn:Hp.
  - apply str_prefix_true_iff in Hp as [rest ->].
    destruct (str_split_head " " rest)
      as (first & post & pieces & Hs & Hno & Heq & Hpost).
    assert (Hsplit : str_split " " ("Bearer " +:+ rest)
                     = "Bearer" :: first :: pieces).
    { rewrite !append_cons. change (EmptyString +:+ rest) with rest.
      cbn. by rewrite Hs. }
    rewrite Hsplit. exists first. split_and!; [done | done |].
    intros rest' Heq'. rewrite !append_cons in Heq'.
    injection Heq' as Heq'. change (rest = rest') in Heq'. subst rest'.
    split; [done|]. exists post. split; [done|].
    destruct Hpost as [->|[after ->]]; [by left|right; by exists after].
  - exists header. split_and!; [done | done |].
    intros rest ->.
    assert (str_prefix "Bearer " ("Bearer " +:+ rest) = true) as Ht.
    { apply str_prefix_true_iff. by exists rest. }
    congruence.
Qed.

(** X19: the protected handler runs only for a header that is present and not
    empty and whose token decodes to data with a user id, and it gets
    that id.  Every refusal carries status 401 and one of three messages.
    With [jwt.decode] returning data or raising one of the two errors
    that are caught, the one exception that can escape before the handler
    runs is the KeyError of decoded data without a user id. *)
Theorem token_required_outcomes {V R : Type}
    (jwt_decode : string → jwt_result V) (f : V → R)
    (authorization : option string) :
  match token_required jwt_decode f authorization with
  | Passed result =>
      ∃ (header token : string) (data : gmap string V) (current_user_id : V),
        authorization = Some header ∧ header ≠ EmptyString ∧
        bearer_token header = Some token ∧
        jwt_decode token = Decoded data ∧
        data !! "user_id" = Some current_user_id ∧
        result = f current_user_id
  | Rejected message status =>
      status = 401%Z ∧
      ((message = "Token is missing" ∧
        (authorization = None ∨ authorization = Some EmptyString)) ∨
       (message = "Token has expired" ∧
        ∃ header token : string,
          authorization = Some header ∧ bearer_token header = Some token ∧
          jwt_decode token = ExpiredSignatureError) ∨
       (message = "Token is invalid" ∧
        ∃ header token : string,
          authorization = Some header ∧ bearer_token header = Some token ∧
          jwt_decode token = InvalidTokenError))
  | Escaped exception =>
      exception = "KeyError" ∧
      ∃ (header token : string) (data : gmap string V),
        authorization = Some header ∧ bearer_token header = Some token ∧
        jwt_decode token = Decoded data ∧ data !! "user_id" = None
  end.
Proof.
  destruct authorization as [[|c header]|]; cbn [token_required].
  - split; [done|]. left. split; [done|]. by right.
  - destruct (bearer_token_total (String c header)) as [token Ht].
    rewrite Ht.
    destruct (jwt_decode token) as [data| |] eqn:Hd.
    + destruct (data !! "user_id") as [uid|] eqn:Hu.
      * by exists (String c header), token, data, uid.
      * split; [done|]. by exists (String c header), token, data.
    + split; [done|]. right; left. split; [done|].
      by exists (String c header), token.
    + split; [done|]. right; right. split; [done|].
      by exists (String c header), token.
  - split; [done|]. left. split; [done|]. by left.
Qed.

(** ** Progress summaries *)

(** X20: a user without any record is a Beginner in education and Needs
    Improvement in health, whether the row holds NULLs or zeros; with
    records, the level is that of the count and the status that of the
    average. *)
Theorem progress_of_history (count : option Z) (average : option Q) :
  let education := calculate_education_progress (count, average) in
  let health := calculate_health_progress (count, average) in
  EducationProgress.total_activities education = default 0%Z count ∧
  HealthProgress.tracking_sessions health = default 0%Z count ∧
  EducationProgress.level education
  = determine_education_level (default 0%Z count) (default 0%Q average) ∧
  HealthProgress.status health
  = determine_health_status (default 0%Q average) ∧
  (default 0%Z count = 0%Z → EducationProgress.level education = "Beginner") ∧
  ((default 0%Q average == 0)%Q →
   HealthProgress.status health = "Needs Improvement").
Proof.
  intros education health; subst education health.
  unfold calculate_education_progress, calculate_health_progress.
  cbn [fst snd EducationProgress.total_activities EducationProgress.level
       HealthProgress.tracking_sessions HealthProgress.status].
  assert (Hc : int_or_zero count = default 0%Z count).
  { destruct count as [v|]; [|done]. cbn. by destruct (Z.eqb_spec v 0). }
  assert (Hs : determine_health_status (num_or_zero average)
               = determine_health_status (default 0%Q average)).
  { destruct average as [v|]; [|done].
    change (default 0%Q (Some v)) with v. cbn [num_or_zero].
    destruct ((v >=? of_int 0)%py && (of_int 0 >=? v)%py) eqn:Hz; [|done].
    apply andb_true_iff in Hz as [H1 H2].
    apply ge_Q_true in H1, H2. cbn [of_int Q_PyNum] in H1, H2.
    unfold inject_Z in H1, H2.
    change (determine_health_status (num:=Q) (of_int 0))
      with "Needs Improvement".
    unfold determine_health_status.
    repeat match goal with
      | |- context [(?a >=? ?b)%py] =>
          let E := fresh "E" in
          destruct (a >=? b)%py eqn:E;
          [apply ge_Q_true in E | apply ge_Q_false in E];
          cbn [of_int Q_PyNum] in E; unfold inject_Z in E
      end; first [done | exfalso; lra]. }
  rewrite Hc, Hs. split_and!; try done.
  - intros ->. done.
  - intros Hz. unfold determine_health_status.
    repeat match goal with
      | |- context [(?a >=? ?b)%py] =>
          let E := fresh "E" in
          destruct (a >=? b)%py eqn:E;
          [apply ge_Q_true in E | apply ge_Q_false in E];
          cbn [of_int Q_PyNum] in E; unfold inject_Z in E
      end; first [done | exfalso; lra].
Qed.
